(** * levenberg-marquardt: a shallow embedding of [src/index.js]

    The entry point [levenbergMarquardt] of the package validates its
    arguments, then runs the damped Gauss-Newton loop: one [step], a clamp of
    every parameter into its bounds, a fresh error, and the tests that end the
    loop.

    JavaScript numbers are IEEE 754 binary64 values; they are modelled by
    Rocq's primitive [float], whose operations are the same binary64
    operations.  The two helpers the file imports, [errorCalculation] and
    [step], live in files of their own: the entry point is stated for every
    such pair of helpers, and a version of each written from the
    specification is given for concrete runs. *)

From Stdlib Require Import Floats ZArith List String Bool Lia PeanoNat.
From Stdlib Require Import QArith Qpower.
From Stdlib Require Uint63.
Import ListNotations.

#[local] Set Warnings "-inexact-float".

Close Scope Q_scope.

Local Open Scope float_scope.
Local Open Scope list_scope.

(** ** JavaScript numbers *)

Module JSNumber.

(** [Number.MAX_SAFE_INTEGER] is 2^53 - 1 and [Number.MIN_SAFE_INTEGER] its
    opposite. *)
Definition MAX_SAFE_INTEGER : float := 9007199254740991.
Definition MIN_SAFE_INTEGER : float := -9007199254740991.

(** [Number.MAX_VALUE], the largest finite double. *)
Definition MAX_VALUE : float := 0x1.fffffffffffffp+1023.

(** The global [isNaN] on a number. *)
Definition isNaN (v : float) : bool := is_nan v.

Definition is_pos_zero (v : float) : bool :=
  match classify v with PZero => true | _ => false end.

Definition is_neg_zero (v : float) : bool :=
  match classify v with NZero => true | _ => false end.

(** One step of the scan of [Math.max] (ECMAScript 21.3.2.24): [highest] is
    replaced by [number] when [number] is [+0] and [highest] is [-0], or when
    [number > highest]. *)
Definition max_step (highest number : float) : float :=
  if is_pos_zero number && is_neg_zero highest then number
  else if highest <? number then number
  else highest.

(** One step of the scan of [Math.min]. *)
Definition min_step (lowest number : float) : float :=
  if is_neg_zero number && is_pos_zero lowest then number
  else if number <? lowest then number
  else lowest.

(** [Math.max(...args)]: [NaN] when an argument is [NaN], else the scan
    started at [-Infinity]. *)
Definition Math_max (args : list float) : float :=
  if existsb isNaN args then nan else fold_left max_step args neg_infinity.

(** [Math.min(...args)]: [NaN] when an argument is [NaN], else the scan
    started at [+Infinity]. *)
Definition Math_min (args : list float) : float :=
  if existsb isNaN args then nan else fold_left min_step args infinity.

End JSNumber.
Import JSNumber.

(** ** JavaScript values and arrays *)

Module JS.

(** The values an argument of [levenbergMarquardt] can hold where the code
    itself tests what it was given ([!v], [Array.isArray(v)], [v || d]): the
    arrays are arrays of numbers, as the JSDoc types say; [Object] is a plain
    object without a [length] property. *)
Inductive value : Type :=
| Undefined
| Null
| Bool (b : bool)
| Number (n : float)
| Str (s : string)
| Object
| Array (elements : list float).

(** [ToBoolean]: [undefined], [null], [false], [+0], [-0], [NaN] and the
    empty string are falsy. *)
Definition truthy (v : value) : bool :=
  match v with
  | Undefined | Null => false
  | Bool b => b
  | Number n => negb (is_nan n || is_zero n)
  | Str s => negb (String.length s =? 0)%nat
  | Object | Array _ => true
  end.

Definition isArray (v : value) : bool :=
  match v with Array _ => true | _ => false end.

(** The elements of an array; used only behind an [isArray] test. *)
Definition elements (v : value) : list float :=
  match v with Array l => l | _ => [] end.

(** [v.length] for a truthy [v]: a number on arrays and strings (counted in
    code units), [undefined] ([None]) on numbers, booleans and [Object]. *)
Definition length (v : value) : option nat :=
  match v with
  | Array l => Some (List.length l)
  | Str s => Some (String.length s)
  | _ => None
  end.

(** [a || b]. *)
Definition or (a b : value) : value := if truthy a then a else b.

(** [new Array(len).fill(v)]: [len] slots when [len] is a number, and the
    one-element array [[undefined]], filled, when [len] is [undefined]. *)
Definition new_Array_fill (len : option nat) (v : float) : list float :=
  match len with
  | Some n => repeat v n
  | None => [v]
  end.

(** [a[k]] read as a number: a missing element is [undefined], which
    [Math.max] and [Math.min] turn into [NaN]. *)
Definition get (a : list float) (k : nat) : float := nth k a nan.

(** [a[k] = v]: in place inside the array, and the array grows when [k] is
    at or past its end (the holes left behind read as [undefined]). *)
Fixpoint set (a : list float) (k : nat) (v : float) : list float :=
  match k, a with
  | O, [] => [v]
  | O, _ :: t => v :: t
  | S k', [] => nan :: set [] k' v
  | S k', h :: t => h :: set t k' v
  end.

End JS.

(** ** The arguments and the result *)

Module Data.
Record t : Type := { x : JS.value; y : JS.value }.
End Data.

(** What the program leaves outside its return value: lines on the console.
    [ConsoleLog error parameters] stands for the line
    [error: ${error}, parameters: ${parameters}]; [Observed] is what a call
    of an observer function given in the options would leave. *)
Inductive effect : Type :=
| ConsoleLog (error : float) (parameters : list float)
| Observed (error : float) (parameters : list float).

Definition Observer : Type := float -> list float -> list effect.

(** The options object.  [None] is a property that is absent or
    [undefined], for which the destructuring pattern substitutes its default.
    [onIteration] is not among the properties the pattern reads. *)
Module Options.
Record t : Type := {
  maxIterations : option float;
  gradientDifference : option float;
  damping : option float;
  errorTolerance : option float;
  minValues : option (list float);
  maxValues : option (list float);
  initialValues : JS.value;
  alignToData : bool;
  logAfterIteration : bool;
  onIteration : option Observer
}.

Definition with_bounds (o : t) (lo hi : option (list float)) : t :=
  {| maxIterations := maxIterations o;
     gradientDifference := gradientDifference o; damping := damping o;
     errorTolerance := errorTolerance o; minValues := lo; maxValues := hi;
     initialValues := initialValues o; alignToData := alignToData o;
     logAfterIteration := logAfterIteration o; onIteration := onIteration o |}.

Definition with_onIteration (o : t) (observer : option Observer) : t :=
  {| maxIterations := maxIterations o;
     gradientDifference := gradientDifference o; damping := damping o;
     errorTolerance := errorTolerance o; minValues := minValues o;
     maxValues := maxValues o; initialValues := initialValues o;
     alignToData := alignToData o;
     logAfterIteration := logAfterIteration o; onIteration := observer |}.

Definition with_damping (o : t) (d : option float) : t :=
  {| maxIterations := maxIterations o;
     gradientDifference := gradientDifference o; damping := d;
     errorTolerance := errorTolerance o; minValues := minValues o;
     maxValues := maxValues o; initialValues := initialValues o;
     alignToData := alignToData o;
     logAfterIteration := logAfterIteration o;
     onIteration := onIteration o |}.
End Options.

(** A parameterized function: applied to a parameter vector it gives the
    function of the independent variable; [length] is the number of formal
    parameters it declares. *)
Definition Curve : Type := list float -> float -> float.

Record ParameterizedFunction : Type := {
  call :> Curve;
  length : nat
}.

Record FitResult : Type := {
  parameterValues : list float;
  parameterError : float;
  iterations : float
}.

Inductive completion : Type :=
| Throw (message : string)
| Return (result : FitResult).

(** [opt = default] in a destructuring pattern. *)
Definition defaulted {A : Type} (opt : option A) (default : A) : A :=
  match opt with Some v => v | None => default end.

(** ** Alignment of the model to the data *)

(** The coefficients of the affine map that is to send [funMin] to
    [dataMin] and [funMax] to [dataMax].  The source returns them as the
    array [[a, b]]; here they are a pair. *)
Definition getLinearParams (dataMin dataMax funMin funMax : float)
    : float * float :=
  let a := (dataMin - dataMax) / (funMin - funMax) in
  let b := dataMax - a * funMax in
  (a, b).

(** [f] rescaled so that the range of [toAlign] is sent onto the range of
    the data. *)
Definition alignedFunction (f : Curve) (dataMin dataMax : float)
    (toAlign : list float) : Curve :=
  let funMin := Math_min toAlign in
  let funMax := Math_max toAlign in
  let params := getLinearParams dataMin dataMax funMin funMax in
  fun paramsToFit x =>
    let originalRes := f paramsToFit x in
    fst params * originalRes + snd params.

(** ** The fitting procedure *)

(** The two imported helpers, [./errorCalculation] and [./step], each with
    the arguments the entry point passes: the data (its [x] and [y]), the
    parameters, and for [step] the damping and the gradient difference, then
    the function to fit. *)
Class Imports : Type := {
  errorCalculation : list float -> list float -> list float -> Curve -> float;
  step :
    list float -> list float -> list float -> float -> float -> Curve
    -> list float
}.

Section Fit.

Context {imports : Imports}.

(** The clamp of one parameter, [Math.min(Math.max(lo, v), hi)]. *)
Definition clamp (lo v hi : float) : float :=
  Math_min [Math_max [lo; v]; hi].

(** The inner [for] loop: [k] runs over [0 .. parLen - 1] and
    [parameters[k]] is overwritten with its clamp. *)
Definition clampAll (parLen : nat) (minValues maxValues parameters : list float)
    : list float :=
  fold_left
    (fun parameters k =>
       JS.set parameters k
         (clamp (JS.get minValues k) (JS.get parameters k) (JS.get maxValues k)))
    (seq 0 parLen) parameters.

(** What is fixed once the arguments are validated. *)
Record Setup : Type := {
  xs : list float;
  ys : list float;
  f : Curve;
  maxIter : float;
  gradDiff : float;
  damp : float;
  tolerance : float;
  lower : list float;
  upper : list float;
  parLen : nat;
  align : bool;
  logging : bool;
  dataMin : float;
  dataMax : float
}.

(** The function handed to [step] and to [errorCalculation] in one pass. *)
Definition alignedFun (s : Setup) (parameters : list float) : Curve :=
  if align s
  then alignedFunction (f s) (dataMin s) (dataMax s)
         (map (f s parameters) (xs s))
  else f s.

(** One pass of the body up to the new error: the parameters after [step]
    and the clamp, and the error computed from them. *)
Definition pass (s : Setup) (parameters : list float) : list float * float :=
  let alignedFun := alignedFun s parameters in
  let stepped :=
    step (xs s) (ys s) parameters (damp s) (gradDiff s) alignedFun in
  let parameters := clampAll (parLen s) (lower s) (upper s) stepped in
  let error := errorCalculation (xs s) (ys s) parameters alignedFun in
  (parameters, error).

(** The result object. *)
Definition result (parameters : list float) (error iteration : float)
    : FitResult :=
  {| parameterValues := parameters;
     parameterError := error;
     iterations := iteration |}.

(** The line the body writes after a pass that did not break. *)
Definition logged (s : Setup) (parameters : list float) (error : float)
    : list effect :=
  if logging s then [ConsoleLog error parameters] else [].

(** The outer [for] loop.  [fuel] bounds the number of passes the model
    runs; [None] says the loop was still running when it ran out. *)
Fixpoint loop (s : Setup) (fuel : nat) (parameters : list float)
    (error : float) (converged : bool) (iteration : float)
    (console : list effect) : option (FitResult * list effect) :=
  if (iteration <? maxIter s) && negb converged then
    match fuel with
    | O => None
    | S fuel' =>
        let '(parameters, error) := pass s parameters in
        if isNaN error then
          Some (result parameters error iteration, console)
        else
          let console := console ++ logged s parameters error in
          let converged := error <=? tolerance s in
          loop s fuel' parameters error converged (iteration + 1) console
    end
  else
    Some (result parameters error iteration, console).

(** Lines 23 to 67: the destructuring of the options with its defaults, the
    checks that throw, and the defaults of the start values and of the
    bounds, in the order of the source.  [inl message] is
    [throw new Error(message)]. *)
Definition prepare (data : Data.t)
    (parameterizedFunction : ParameterizedFunction) (options : Options.t)
    : string + Setup * list float :=
  let maxIterations := defaulted (Options.maxIterations options) 100 in
  let gradientDifference := defaulted (Options.gradientDifference options) 10e-2 in
  let damping := defaulted (Options.damping options) 0 in
  let errorTolerance := defaulted (Options.errorTolerance options) 10e-3 in
  let initialValues := Options.initialValues options in
  if damping <=? 0 then
    inl "The damping option must be a positive number"%string
  else if negb (JS.truthy (Data.x data)) || negb (JS.truthy (Data.y data)) then
    inl "The data parameter must have x and y elements"%string
  else if negb (JS.isArray (Data.x data))
          || (List.length (JS.elements (Data.x data)) <? 2)%nat
          || negb (JS.isArray (Data.y data))
          || (List.length (JS.elements (Data.y data)) <? 2)%nat then
    inl "The data parameter elements must be an array with more than 2 points"%string
  else if negb (List.length (JS.elements (Data.x data))
                =? List.length (JS.elements (Data.y data)))%nat then
    inl "The data parameter elements must have the same size"%string
  else
    let xs := JS.elements (Data.x data) in
    let ys := JS.elements (Data.y data) in
    let dataMin := Math_min ys in
    let dataMax := Math_max ys in
    let parameters :=
      JS.or initialValues
        (JS.Array (JS.new_Array_fill (Some (length parameterizedFunction)) 1)) in
    let parLen := JS.length parameters in
    let maxValues :=
      defaulted (Options.maxValues options)
        (JS.new_Array_fill parLen MAX_SAFE_INTEGER) in
    let minValues :=
      defaulted (Options.minValues options)
        (JS.new_Array_fill parLen MIN_SAFE_INTEGER) in
    if negb (List.length maxValues =? List.length minValues)%nat then
      inl "minValues and maxValues must be the same size"%string
    else if negb (JS.isArray parameters) then
      inl "initialValues must be an array"%string
    else
      inr ({| xs := xs; ys := ys; f := call parameterizedFunction;
              maxIter := maxIterations; gradDiff := gradientDifference;
              damp := damping; tolerance := errorTolerance;
              lower := minValues; upper := maxValues;
              parLen := defaulted parLen 0%nat;
              align := Options.alignToData options;
              logging := Options.logAfterIteration options;
              dataMin := dataMin; dataMax := dataMax |},
           JS.elements parameters).

(** The entry point: the checks, the first error, the loop, the result. *)
Definition levenbergMarquardt (fuel : nat) (data : Data.t)
    (parameterizedFunction : ParameterizedFunction) (options : Options.t)
    : option (completion * list effect) :=
  match prepare data parameterizedFunction options with
  | inl message => Some (Throw message, [])
  | inr (s, parameters) =>
      let error := errorCalculation (xs s) (ys s) parameters (f s) in
      let converged := error <=? tolerance s in
      match loop s fuel parameters error converged 0 [] with
      | Some (result, console) => Some (Return result, console)
      | None => None
      end
  end.

(** The state after [n] passes run one after the other, whatever the tests
    of the loop say: the parameters and the error. *)
Fixpoint after (s : Setup) (n : nat) (parameters : list float) (error : float)
    : list float * float :=
  match n with
  | O => (parameters, error)
  | S n' => pass s (fst (after s n' parameters error))
  end.

(** The lines written by passes [1 .. n]. *)
Definition lines (s : Setup) (n : nat) (parameters : list float) (error : float)
    : list effect :=
  flat_map
    (fun j => logged s (fst (after s j parameters error))
                       (snd (after s j parameters error)))
    (seq 1 n).

End Fit.

(** The loop counter after [n] increments, starting from [0]. *)
Fixpoint count (n : nat) : float :=
  match n with
  | O => 0
  | S n' => count n' + 1
  end.

(** The double a natural number converts to (exactly, below 2^53). *)
Definition Number_of_nat (n : nat) : float :=
  of_uint63 (Uint63.of_Z (Z.of_nat n)).

(** [p] shifted left by [t] bits. *)
Definition shl (p : positive) (t : Z) : positive :=
  match t with Zpos n => Pos.iter xO p n | _ => p end.

(** The decoded form of the double of a positive integer of at most 53
    bits: its digits moved up to a mantissa of 53 bits, and the exponent
    that makes up for it. *)
Definition integer (p : positive) : spec_float :=
  S754_finite false
    (shl p (53 - Zpos (digits2_pos p))) (Zpos (digits2_pos p) - 53).

Definition integerZ (z : Z) : spec_float :=
  match z with Zpos p => integer p | _ => S754_zero false end.

(** ** The helpers, from the specification

    [errorCalculation] and [step] are modules of the package of their own.
    The two definitions below follow the contracts the specification gives
    them, so that the entry point can be run on concrete data. *)

Module Helpers.

(** Modelled from the spec: [./errorCalculation] is missing; section 4.1
    gives it as the square root of the sum over the samples of the squared
    residuals [y_i - model(parameters)(x_i)], and as [NaN] when the model
    evaluates to [NaN] or to an infinity at a sample. *)
Definition errorCalculation (xs ys parameters : list float) (model : Curve)
    : float :=
  let func := model parameters in
  if forallb (fun '(x, _) => is_finite (func x)) (combine xs ys) then
    PrimFloat.sqrt (fold_left
                     (fun error '(x, y) => error + (y - func x) * (y - func x))
                     (combine xs ys) 0)
  else nan.

Definition dot (u v : list float) : float :=
  fold_left (fun acc '(a, b) => acc + a * b) (combine u v) 0.

(** The parameter vector with [delta] added to its [k]-th entry. *)
Definition perturbed (parameters : list float) (k : nat) (delta : float)
    : list float :=
  map (fun '(j, p) => if (j =? k)%nat then p + delta else p)
      (combine (seq 0 (List.length parameters)) parameters).

(** Modelled from the spec: the Jacobian builder of section 4.2, by forward
    differences; the result is the list of the columns of [J], one per
    parameter. *)
Definition jacobian (xs parameters : list float) (model : Curve)
    (gradientDifference : float) : list (list float) :=
  map (fun k =>
         map (fun x =>
                (model (perturbed parameters k gradientDifference) x
                 - model parameters x) / gradientDifference)
             xs)
      (seq 0 (List.length parameters)).

(** One round of Gauss-Jordan elimination on the augmented rows: row [i] is
    scaled to a unit pivot and subtracted from the others. *)
Definition eliminate (rows : list (list float)) (i : nat) : list (list float) :=
  let pivotRow := nth i rows [] in
  let pivot := nth i pivotRow nan in
  let unit := map (fun v => v / pivot) pivotRow in
  map (fun '(j, row) =>
         if (j =? i)%nat then unit
         else
           let factor := nth i row nan in
           map (fun '(v, u) => v - factor * u) (combine row unit))
      (combine (seq 0 (List.length rows)) rows).

(** Modelled from the spec: the dense solver of section 4.3 (any correct
    one suffices there); the damped matrix is symmetric positive definite,
    so elimination needs no pivoting.  When the system is singular or the
    elimination fails numerically (an entry of the solution is [NaN] or an
    infinity), the increment is undefined, and it is [NaN] in every
    entry. *)
Definition solve (matrix : list (list float)) (rhs : list float) : list float :=
  let augmented := map (fun '(row, b) => row ++ [b]) (combine matrix rhs) in
  let n := List.length matrix in
  let solution :=
    map (fun row => nth n row nan) (fold_left eliminate (seq 0 n) augmented) in
  if forallb is_finite solution then solution
  else map (fun _ => nan) solution.

(** Modelled from the spec: [./step] is missing; section 4.3 gives the
    update as the solution [delta] of [(Jt J + damping I) delta = Jt r],
    added to the parameters. *)
Definition step (xs ys parameters : list float)
    (damping gradientDifference : float) (model : Curve) : list float :=
  let residuals := map (fun '(x, y) => y - model parameters x) (combine xs ys) in
  let columns := jacobian xs parameters model gradientDifference in
  let n := List.length parameters in
  let hessian :=
    map (fun '(j, cj) =>
           map (fun '(k, ck) =>
                  if (j =? k)%nat then dot cj ck + damping else dot cj ck)
               (combine (seq 0 n) columns))
        (combine (seq 0 n) columns) in
  let gradient := map (fun cj => dot cj residuals) columns in
  let delta := solve hessian gradient in
  map (fun '(p, d) => p + d) (combine parameters delta).

Definition imports : Imports :=
  Build_Imports errorCalculation step.

(** The entry point with these helpers. *)
Definition fit : nat -> Data.t -> ParameterizedFunction -> Options.t ->
    option (completion * list effect) :=
  @levenbergMarquardt imports.

(** [p => x => p[0] * x + p[1]], the line of the specification's scenario. *)
Definition line : ParameterizedFunction :=
  {| call := fun p x => JS.get p 0 * x + JS.get p 1; length := 1 |}.

(** [p => x => p[0] * x]. *)
Definition slope : ParameterizedFunction :=
  {| call := fun p x => JS.get p 0 * x; length := 1 |}.

End Helpers.

(** ** Notions the statements use *)

(** The first [n] passes of a run all go on: pass [j] is entered (the
    counter is below the cap and the error before it is above the
    tolerance) and the error it computes is a number. *)
Definition running {imports : Imports} (s : Setup) (n : nat)
    (parameters : list float) (error : float) : Prop :=
  forall j, (j < n)%nat ->
    (count j <? maxIter s) = true
    /\ (snd (after s j parameters error) <=? tolerance s) = false
    /\ isNaN (snd (after s (S j) parameters error)) = false.

(** [m] is a value the counter takes, after [n] increments and not before:
    the doubles [0], [1], [2], ... are of this kind. *)
Definition counts_to (n : nat) (m : float) : Prop :=
  count n = m /\ forall k, (k < n)%nat -> (count k <? m) = true.

(** When the specification says a call is rejected (section 7), in its
    words: the damping is missing or not positive; the data lacks [x] or
    [y], one of them is not a sequence or has fewer than two elements, or
    their lengths differ; the bounds, given or by default, differ in
    length; the start values are present and not a sequence.  [present]
    says when start values count as present. *)
Definition rejects (present : JS.value -> bool) (data : Data.t)
    (parameterizedFunction : ParameterizedFunction) (options : Options.t)
    : bool :=
  let x := Data.x data in
  let y := Data.y data in
  let start :=
    if JS.isArray (Options.initialValues options)
    then JS.elements (Options.initialValues options)
    else repeat 1 (length parameterizedFunction) in
  let lo :=
    defaulted (Options.minValues options)
      (repeat MIN_SAFE_INTEGER (List.length start)) in
  let hi :=
    defaulted (Options.maxValues options)
      (repeat MAX_SAFE_INTEGER (List.length start)) in
  match Options.damping options with
  | None => true
  | Some d => d <=? 0
  end
  || negb (JS.isArray x) || negb (JS.isArray y)
  || (List.length (JS.elements x) <? 2)%nat
  || (List.length (JS.elements y) <? 2)%nat
  || negb (List.length (JS.elements x) =? List.length (JS.elements y))%nat
  || negb (List.length lo =? List.length hi)%nat
  || (present (Options.initialValues options)
      && negb (JS.isArray (Options.initialValues options))).

(** Present as the specification reads it: any value but [undefined]. *)
Definition given (v : JS.value) : bool :=
  match v with JS.Undefined => false | _ => true end.

(** ** Concrete inputs *)

Module Examples.
Import Helpers.

(** The points of the line [y = 2 x + 1] at [0, 1, 2, 3]. *)
Definition onLine : Data.t :=
  {| Data.x := JS.Array [0; 1; 2; 3]; Data.y := JS.Array [1; 3; 5; 7] |}.

(** Two points of the steep line [y = 1e17 x]. *)
Definition steep : Data.t :=
  {| Data.x := JS.Array [1; 2]; Data.y := JS.Array [1e17; 2e17] |}.

(** Options with a damping and a gradient difference of [0.01]. *)
Definition options (maxIterations : option float) (errorTolerance : float)
    (lo hi : option (list float)) (initialValues : JS.value)
    (alignToData logAfterIteration : bool) (onIteration : option Observer)
    : Options.t :=
  {| Options.maxIterations := maxIterations;
     Options.gradientDifference := Some 0.01;
     Options.damping := Some 0.01;
     Options.errorTolerance := Some errorTolerance;
     Options.minValues := lo; Options.maxValues := hi;
     Options.initialValues := initialValues;
     Options.alignToData := alignToData;
     Options.logAfterIteration := logAfterIteration;
     Options.onIteration := onIteration |}.

(** An observer that leaves a trace of each call. *)
Definition observer : Observer := fun error parameters =>
  [Observed error parameters].

(** The scenario of the specification: the line fitted from [[0, 0]]. *)
Definition fromOrigin : Options.t :=
  options (Some 50) 1e-6 None None (JS.Array [0; 0]) false true None.

(** The same fit started on the exact parameters, with bounds that exclude
    them. *)
Definition fromExact : Options.t :=
  options None 1e-6 (Some [0; 0]) (Some [1; 1]) (JS.Array [2; 1])
    false false None.

(** A slope held at zero by its bounds and aligned to the data: from the
    second pass on the model is constant over the samples. *)
Definition heldAtZero : Options.t :=
  options None 1e-6 (Some [0]) (Some [0]) (JS.Array [1]) true true None.

(** The line fitted for two passes between the bounds [[0, 0]] and
    [[1.5, 3]]. *)
Definition bounded : Options.t :=
  options (Some 2) 1e-6 (Some [0; 0]) (Some [1.5; 3]) (JS.Array [0; 0])
    false true None.

(** One pass on the line between bounds given upside down. *)
Definition upsideDown : Options.t :=
  options (Some 1) 1e-6 (Some [5; 5]) (Some [1; 1]) (JS.Array [0; 0])
    false false None.

(** One pass on the steep line, with the default bounds. *)
Definition onePass : Options.t :=
  options (Some 1) 1e-6 None None JS.Undefined false false None.

(** The scenario of the specification with an observer and no logging. *)
Definition observed : Options.t :=
  options (Some 50) 1e-6 None None (JS.Array [0; 0]) false false
    (Some observer).

(** A cap of [-1] on the number of iterations. *)
Definition negativeCap : Options.t :=
  options (Some (-1)) 1e-6 None None (JS.Array [0; 0]) false false None.

(** A cap of [2.5]. *)
Definition fractionalCap : Options.t :=
  options (Some 2.5) 1e-6 None None (JS.Array [0; 0]) false false None.

(** Start values given as the number [0]. *)
Definition startZero : Options.t :=
  options (Some 1) 1e-6 None None (JS.Number 0) false false None.

End Examples.

(** A decoded double that is a zero or [NaN], and one that is an infinity
    or [NaN]. *)
Definition zero_or_nan (v : spec_float) : Prop :=
  match v with S754_zero _ | S754_nan => True | _ => False end.

Definition not_finite (v : spec_float) : Prop :=
  match v with S754_infinity _ | S754_nan => True | _ => False end.

(** The rational number a decoded double stands for, [m 2^e] with its sign;
    the infinities and [NaN] stand for none. *)
Definition SF2Q (v : spec_float) : option Q :=
  match v with
  | S754_zero _ => Some 0%Q
  | S754_finite s m e =>
      Some (inject_Z (if s then Zneg m else Zpos m) * Qpower 2 e)%Q
  | S754_infinity _ | S754_nan => None
  end.

Definition value (v : float) : option Q := SF2Q (Prim2SF v).



Module MoreExamples.
Import Helpers Examples.

(** Two parameters with bounds that reach the first only. *)
Definition shortBounds : Options.t :=
  options (Some 1) 1e-6 (Some [0]) (Some [3]) (JS.Array [0; 0])
    false false None.

(** The points of the line with a [NaN] for the third [y]. *)
Definition withNaN : Data.t :=
  {| Data.x := JS.Array [0; 1; 2; 3]; Data.y := JS.Array [1; 3; nan; 7] |}.

(** The line fitted from [[0, 0]], aligned to the data. *)
Definition aligned : Options.t :=
  options (Some 50) 1e-6 None None (JS.Array [0; 0]) true false None.

(** The line fitted from [[1, 0]], aligned to the data: the values of
    [x => x] over the samples range over [[0, 3]], and aligned on the data
    they are the data. *)
Definition alignedFromIdentity : Options.t :=
  options (Some 50) 1e-6 None None (JS.Array [1; 0]) true false None.

End MoreExamples.

(** ** Order facts on binary64 values

    The comparison of two doubles is [SFcompare] on their decoded forms; the
    facts below are read off that definition. *)

Section FloatOrder.

Lemma SFcompare_antisym (a b : spec_float) :
  SFcompare b a = option_map CompOpp (SFcompare a b).
Proof.
  destruct a as [sa|sa| |sa ma ea], b as [sb|sb| |sb mb eb]; simpl;
    try reflexivity;
    try (destruct sa; reflexivity); try (destruct sb; reflexivity);
    try (destruct sa, sb; reflexivity).
  destruct sa, sb; simpl; try reflexivity;
    rewrite (Z.compare_antisym ea eb);
    destruct (ea ?= eb)%Z; simpl; try reflexivity;
    rewrite (Pos.compare_cont_antisym ma mb Eq); simpl;
    destruct (Pos.compare_cont Eq ma mb); reflexivity.
Qed.

Lemma SFcompare_refl (a : spec_float) :
  a <> S754_nan -> SFcompare a a = Some Eq.
Proof.
  destruct a as [s|s| |s m e]; simpl; intros H;
    try reflexivity; try congruence.
  - destruct s; reflexivity.
  - destruct s; rewrite Z.compare_refl, Pos.compare_cont_refl; reflexivity.
Qed.

Lemma SFcompare_nan_l (b : spec_float) : SFcompare S754_nan b = None.
Proof. reflexivity. Qed.

Lemma SFcompare_nan_r (a : spec_float) : SFcompare a S754_nan = None.
Proof. destruct a; reflexivity. Qed.

Lemma is_nan_spec (v : float) :
  is_nan v = true <-> Prim2SF v = S754_nan.
Proof.
  unfold is_nan. rewrite FloatAxioms.eqb_spec. unfold SFeqb.
  destruct (Prim2SF v) as [s|s| |s m e] eqn:E;
    try (rewrite SFcompare_refl by discriminate; simpl; split; discriminate).
  simpl. split; reflexivity.
Qed.

Lemma is_nan_false_spec (v : float) :
  is_nan v = false <-> Prim2SF v <> S754_nan.
Proof.
  rewrite <- is_nan_spec. destruct (is_nan v); split; congruence.
Qed.

Lemma leb_not_nan (a b : float) :
  (a <=? b) = true -> is_nan a = false /\ is_nan b = false.
Proof.
  rewrite FloatAxioms.leb_spec. unfold SFleb. intros H.
  split; apply is_nan_false_spec; intros E; rewrite E in H;
    [rewrite SFcompare_nan_l in H | rewrite SFcompare_nan_r in H];
    discriminate.
Qed.

Lemma ltb_not_nan (a b : float) :
  (a <? b) = true -> is_nan a = false /\ is_nan b = false.
Proof.
  rewrite FloatAxioms.ltb_spec. unfold SFltb. intros H.
  split; apply is_nan_false_spec; intros E; rewrite E in H;
    [rewrite SFcompare_nan_l in H | rewrite SFcompare_nan_r in H];
    discriminate.
Qed.

Lemma ltb_leb (a b : float) : (a <? b) = true -> (a <=? b) = true.
Proof.
  rewrite FloatAxioms.ltb_spec, FloatAxioms.leb_spec. unfold SFltb, SFleb.
  destruct (SFcompare _ _) as [[]|]; congruence.
Qed.

Lemma leb_refl (a : float) : is_nan a = false -> (a <=? a) = true.
Proof.
  intros H. apply is_nan_false_spec in H.
  rewrite FloatAxioms.leb_spec. unfold SFleb. rewrite SFcompare_refl by exact H.
  reflexivity.
Qed.

(** Two numbers that are not [NaN] are comparable. *)
Lemma ltb_false_leb (a b : float) :
  is_nan a = false -> is_nan b = false -> (a <? b) = false -> (b <=? a) = true.
Proof.
  intros Ha Hb. apply is_nan_false_spec in Ha, Hb.
  rewrite FloatAxioms.ltb_spec, FloatAxioms.leb_spec. unfold SFltb, SFleb.
  rewrite (SFcompare_antisym (Prim2SF a) (Prim2SF b)).
  destruct (SFcompare (Prim2SF a) (Prim2SF b)) as [[]|] eqn:E; simpl;
    try congruence.
  destruct (Prim2SF a), (Prim2SF b); simpl in E; congruence.
Qed.

Lemma leb_ltb_false (a b : float) : (a <=? b) = true -> (b <? a) = false.
Proof.
  rewrite FloatAxioms.ltb_spec, FloatAxioms.leb_spec. unfold SFltb, SFleb.
  rewrite (SFcompare_antisym (Prim2SF a) (Prim2SF b)).
  destruct (SFcompare (Prim2SF a) (Prim2SF b)) as [[]|]; simpl; congruence.
Qed.

(** [-Infinity] lies below every number, so the first step of [Math.max]
    keeps its argument. *)
Lemma max_step_neg_infinity (v : float) :
  is_nan v = false -> max_step neg_infinity v = v.
Proof.
  intros Hv. unfold max_step.
  replace (is_neg_zero neg_infinity) with false by reflexivity.
  rewrite andb_false_r.
  destruct (neg_infinity <? v) eqn:E; [reflexivity|].
  apply Prim2SF_inj. apply is_nan_false_spec in Hv.
  rewrite FloatAxioms.ltb_spec in E. unfold SFltb in E.
  change (Prim2SF neg_infinity) with (S754_infinity true) in *.
  destruct (Prim2SF v) as [s|s| |s m e]; simpl in E;
    try discriminate; try congruence.
  destruct s; [reflexivity | discriminate].
Qed.

Lemma min_step_infinity (v : float) :
  is_nan v = false -> min_step infinity v = v.
Proof.
  intros Hv. unfold min_step.
  replace (is_pos_zero infinity) with false by reflexivity.
  rewrite andb_false_r.
  destruct (v <? infinity) eqn:E; [reflexivity|].
  apply Prim2SF_inj. apply is_nan_false_spec in Hv.
  rewrite FloatAxioms.ltb_spec in E. unfold SFltb in E.
  change (Prim2SF infinity) with (S754_infinity false) in *.
  destruct (Prim2SF v) as [s|s| |s m e]; simpl in E;
    try discriminate; try congruence.
  destruct s; [discriminate | reflexivity].
Qed.

End FloatOrder.

(** ** Counting in doubles

    The counter of the loop starts at [0] and is incremented by [1]; below
    2^53 every such sum is exact, so that the counter after [n] increments
    is the double of [n], and the counters compare as the integers do. *)

Section Counting.

Local Open Scope Z_scope.

Lemma iter_pos_eq {A} (f : A -> A) (n : positive) (x : A) :
  SpecFloat.iter_pos f n x = Pos.iter f x n.
Proof.
  revert x. induction n as [n IH|n IH|]; intros x; simpl.
  - rewrite !IH. rewrite !Pos.iter_swap. reflexivity.
  - rewrite !IH. reflexivity.
  - reflexivity.
Qed.

Lemma digits2_shl (p n : positive) :
  digits2_pos (Pos.iter xO p n) = (digits2_pos p + n)%positive.
Proof.
  induction n as [|n IH] using Pos.peano_ind.
  - simpl. rewrite Pos.add_1_r. reflexivity.
  - rewrite Pos.iter_succ. simpl. rewrite IH. lia.
Qed.

Lemma shr_shl (n : positive) : forall p,
  Pos.iter shr_1 {| shr_m := Zpos (Pos.iter xO p n); shr_r := false; shr_s := false |} n
  = {| shr_m := Zpos p; shr_r := false; shr_s := false |}.
Proof.
  induction n as [|n IH] using Pos.peano_ind; intros p.
  - reflexivity.
  - rewrite !Pos.iter_succ.
    replace (xO (Pos.iter xO p n)) with (Pos.iter xO (xO p) n)
      by apply Pos.iter_swap.
    rewrite IH. reflexivity.
Qed.

Lemma digits2_size p : digits2_pos p = Pos.size p.
Proof. induction p; simpl; congruence. Qed.

Lemma digits2_log2 p : Zpos (digits2_pos p) = Z.log2 (Zpos p) + 1.
Proof.
  rewrite digits2_size. destruct p; simpl; try reflexivity; lia.
Qed.

Lemma fexp_digits (d : Z) : 1 <= d -> fexp 53 1024 d = d - 53.
Proof. intros H. unfold fexp, emin. lia. Qed.

Lemma shl_digits (P : positive) :
  Zpos (digits2_pos P) <= 53 ->
  Zpos (digits2_pos (shl P (53 - Zpos (digits2_pos P)))) = 53.
Proof.
  intros Hd. unfold shl.
  destruct (53 - Zpos (digits2_pos P)) as [|t|t] eqn:E; try lia.
  rewrite digits2_shl. lia.
Qed.

(** Shifting [P * 2^52] right by all but one of the digits of [P] leaves
    the 53-digit mantissa of [P], exactly. *)
Lemma shr_to_mantissa (P p : positive) :
  Zpos (digits2_pos P) - 1 = Zpos p ->
  Zpos (digits2_pos P) <= 53 ->
  SpecFloat.iter_pos shr_1 p
    {| shr_m := Zpos (Pos.iter xO P 52); shr_r := false; shr_s := false |}
  = {| shr_m := Zpos (shl P (53 - Zpos (digits2_pos P)));
       shr_r := false; shr_s := false |}.
Proof.
  intros Hp Hd. rewrite iter_pos_eq. unfold shl.
  destruct (53 - Zpos (digits2_pos P)) as [|t|t] eqn:E; try lia.
  - assert (p = 52%positive) by lia. subst p. apply shr_shl.
  - replace 52%positive with (p + t)%positive by lia.
    rewrite Pos.iter_add. apply shr_shl.
Qed.

(** A 53-digit mantissa at an exponent in range needs no second shift. *)
Lemma second_shift (m : positive) (e : Z) :
  Zpos (digits2_pos m) = 53 -> -1074 <= e ->
  shr_fexp 53 1024 (Zpos m) e loc_Exact
  = ({| shr_m := Zpos m; shr_r := false; shr_s := false |}, e).
Proof.
  intros Hm He. unfold shr_fexp, Zdigits2. rewrite Hm.
  unfold fexp, emin.
  replace (Z.max (53 + e - 53) (3 - 1024 - 53) - e) with 0 by lia.
  reflexivity.
Qed.

(** Rounding [P * 2^52] at exponent [-52] gives the double [P]. *)
Lemma round_shifted (P : positive) :
  Zpos (digits2_pos P) <= 53 ->
  binary_round 53 1024 false (Pos.iter xO P 52) (-52) = integer P.
Proof.
  intros Hd. unfold binary_round.
  rewrite digits2_shl.
  replace (Zpos (digits2_pos P + 52) + -52) with (Zpos (digits2_pos P)) by lia.
  rewrite fexp_digits by lia.
  unfold shl_align.
  replace (Zpos (digits2_pos P) - 53 - -52) with (Zpos (digits2_pos P) - 1) by lia.
  assert (Hal : match Zpos (digits2_pos P) - 1 with
          | Z.neg d => (Pos.iter xO (Pos.iter xO P 52) d, Zpos (digits2_pos P) - 53)
          | _ => (Pos.iter xO P 52, -52)
          end = (Pos.iter xO P 52, -52)).
  { destruct (Zpos (digits2_pos P) - 1) eqn:E; try reflexivity. lia. }
  rewrite Hal. clear Hal.
  unfold binary_round_aux.
  assert (H1 : shr_fexp 53 1024 (Zpos (Pos.iter xO P 52)) (-52) loc_Exact
               = ({| shr_m := Zpos (shl P (53 - Zpos (digits2_pos P)));
                     shr_r := false; shr_s := false |},
                  Zpos (digits2_pos P) - 53)).
  { unfold shr_fexp, Zdigits2. rewrite digits2_shl.
    replace (Zpos (digits2_pos P + 52) + -52) with (Zpos (digits2_pos P)) by lia.
    rewrite fexp_digits by lia.
    replace (Zpos (digits2_pos P) - 53 - -52) with (Zpos (digits2_pos P) - 1) by lia.
    unfold shr_record_of_loc, shr.
    destruct (Zpos (digits2_pos P) - 1) as [|p|p] eqn:E; try lia.
    - f_equal; [|lia].
      replace (53 - Zpos (digits2_pos P)) with 52 by lia. reflexivity.
    - f_equal; [|lia]. apply shr_to_mantissa; assumption. }
  rewrite H1. simpl shr_m. simpl loc_of_shr_record.
  unfold round_nearest_even.
  rewrite second_shift by (try apply shl_digits; lia).
  simpl shr_m.
  replace (Zpos (digits2_pos P) - 53 <=? 1024 - 53) with true
    by (symmetry; apply Z.leb_le; lia).
  reflexivity.
Qed.

Lemma digits2_mono (p q : positive) :
  (p <= q)%positive -> Zpos (digits2_pos p) <= Zpos (digits2_pos q).
Proof.
  intros H. rewrite !digits2_log2.
  apply Z.add_le_mono_r. apply Z.log2_le_mono. lia.
Qed.

Lemma align_to_52 (p : positive) :
  Zpos (digits2_pos p) <= 53 ->
  shl_align (shl p (53 - Zpos (digits2_pos p))) (Zpos (digits2_pos p) - 53) (-52)
  = (Pos.iter xO p 52, -52).
Proof.
  intros Hd. unfold shl_align.
  replace (-52 - (Zpos (digits2_pos p) - 53)) with (1 - Zpos (digits2_pos p)) by lia.
  destruct (1 - Zpos (digits2_pos p)) as [|t|t] eqn:E; try lia.
  - replace (53 - Zpos (digits2_pos p)) with 52 by lia.
    f_equal. lia.
  - f_equal. unfold shl.
    destruct (53 - Zpos (digits2_pos p)) as [|u|u] eqn:Eu; try lia.
    + f_equal. lia.
    + rewrite <- Pos.iter_add. f_equal. lia.
Qed.

Lemma shl52_add (p q : positive) :
  (Pos.iter xO p 52 + Pos.iter xO q 52 = Pos.iter xO (p + q) 52)%positive.
Proof. reflexivity. Qed.

(** Adding the double 1 to the double [p] gives the double [p + 1]. *)
Lemma integer_succ (p : positive) :
  Zpos (digits2_pos (p + 1)) <= 53 ->
  SFadd 53 1024 (integer p) (integer 1) = integer (p + 1).
Proof.
  intros Hd.
  assert (Hp : Zpos (digits2_pos p) <= 53).
  { pose proof (digits2_mono p (p + 1) ltac:(lia)). lia. }
  unfold integer at 1 2.
  change (digits2_pos 1) with 1%positive.
  change (shl 1 (53 - 1)) with (Pos.iter xO 1%positive 52).
  change (1 - 53) with (-52).
  unfold SFadd.
  replace (Z.min (Zpos (digits2_pos p) - 53) (-52)) with (-52) by lia.
  rewrite (align_to_52 p Hp).
  change (shl_align (Pos.iter xO 1%positive 52) (-52) (-52))
    with (Pos.iter xO 1%positive 52, -52).
  unfold fst, cond_Zopp.
  change (Zpos (Pos.iter xO p 52) + Zpos (Pos.iter xO 1%positive 52))
    with (Zpos (Pos.iter xO p 52 + Pos.iter xO 1%positive 52)).
  rewrite shl52_add.
  unfold binary_normalize.
  apply round_shifted. exact Hd.
Qed.

Lemma shl_lt (n p q : positive) :
  (p < q)%positive -> (Pos.iter xO p n < Pos.iter xO q n)%positive.
Proof.
  intros H. induction n as [|n IH] using Pos.peano_ind.
  - simpl. lia.
  - rewrite !Pos.iter_succ. lia.
Qed.

(** The doubles of two integers compare as the integers do. *)
Lemma integer_lt (p q : positive) :
  (p < q)%positive -> Zpos (digits2_pos q) <= 53 ->
  SFcompare (integer p) (integer q) = Some Lt.
Proof.
  intros Hlt Hq.
  pose proof (digits2_mono p q ltac:(lia)) as Hmono.
  unfold integer, SFcompare.
  destruct (Z.compare_spec (Zpos (digits2_pos p) - 53) (Zpos (digits2_pos q) - 53))
    as [E|E|E]; try reflexivity; try lia.
  assert (Ed : digits2_pos p = digits2_pos q) by lia.
  rewrite Ed. f_equal.
  change (Pos.compare_cont Eq ?a ?b) with (a ?= b)%positive.
  apply Pos.compare_lt_iff. unfold shl.
  destruct (53 - Zpos (digits2_pos q)); try exact Hlt.
  apply shl_lt. exact Hlt.
Qed.

Lemma integerZ_lt (a b : Z) :
  0 <= a < b -> b < 2 ^ 53 ->
  SFcompare (integerZ a) (integerZ b) = Some Lt.
Proof.
  intros [Ha Hab] Hb.
  destruct b as [|q|q]; try lia.
  assert (Hq : Zpos (digits2_pos q) <= 53).
  { rewrite digits2_log2.
    assert (Z.log2 (Zpos q) < 53) by (apply Z.log2_lt_pow2; lia). lia. }
  destruct a as [|p|p]; try lia.
  - reflexivity.
  - apply integer_lt; [lia | exact Hq].
Qed.

Lemma integerZ_succ (a : Z) :
  0 <= a -> a + 1 < 2 ^ 53 ->
  SFadd 53 1024 (integerZ a) (integer 1) = integerZ (a + 1).
Proof.
  intros Ha Hb. destruct a as [|p|p]; try lia.
  - reflexivity.
  - change (Zpos p + 1) with (Zpos (p + 1)). simpl integerZ.
    apply integer_succ. rewrite digits2_log2.
    assert (Z.log2 (Zpos (p + 1)) < 53) by (apply Z.log2_lt_pow2; lia). lia.
Qed.

(** Rounding the integer [P] itself gives its double. *)
Lemma round_unshifted (P : positive) :
  Zpos (digits2_pos P) <= 53 ->
  binary_round 53 1024 false P 0 = integer P.
Proof.
  intros Hd. unfold binary_round.
  replace (Zpos (digits2_pos P) + 0) with (Zpos (digits2_pos P)) by lia.
  rewrite fexp_digits by lia.
  assert (Hal : shl_align P 0 (Zpos (digits2_pos P) - 53)
                = (shl P (53 - Zpos (digits2_pos P)), Zpos (digits2_pos P) - 53)).
  { unfold shl_align, shl.
    replace (Zpos (digits2_pos P) - 53 - 0) with (Zpos (digits2_pos P) - 53) by lia.
    destruct (Zpos (digits2_pos P) - 53) as [|t|t] eqn:E; try lia.
    - replace (53 - Zpos (digits2_pos P)) with 0 by lia. reflexivity.
    - replace (53 - Zpos (digits2_pos P)) with (Zpos t) by lia. reflexivity. }
  rewrite Hal. unfold binary_round_aux.
  rewrite second_shift by (try apply shl_digits; lia).
  simpl shr_m. simpl loc_of_shr_record. unfold round_nearest_even.
  rewrite second_shift by (try apply shl_digits; lia).
  simpl shr_m.
  replace (Zpos (digits2_pos P) - 53 <=? 1024 - 53) with true
    by (symmetry; apply Z.leb_le; lia).
  reflexivity.
Qed.

Lemma Number_of_nat_spec (n : nat) :
  Z.of_nat n < 2 ^ 53 ->
  Prim2SF (Number_of_nat n) = integerZ (Z.of_nat n).
Proof.
  intros Hn. unfold Number_of_nat. rewrite of_uint63_spec.
  rewrite Uint63.of_Z_spec.
  rewrite Z.mod_small by (change Uint63.wB with (2 ^ 63); lia).
  destruct (Z.of_nat n) as [|p|p] eqn:E; try lia.
  - reflexivity.
  - simpl. apply round_unshifted. rewrite digits2_log2.
    assert (Z.log2 (Zpos p) < 53) by (apply Z.log2_lt_pow2; lia). lia.
Qed.


Lemma count_spec (n : nat) :
  Z.of_nat n < 2 ^ 53 ->
  Prim2SF (count n) = integerZ (Z.of_nat n).
Proof.
  induction n as [|n IH]; intros Hn.
  - reflexivity.
  - change (count (S n)) with (count n + 1)%float.
    rewrite FloatAxioms.add_spec. rewrite IH by lia.
    change (Prim2SF 1%float) with (integer 1).
    unfold SF64add. rewrite integerZ_succ by lia.
    f_equal. lia.
Qed.

Lemma count_Number_of_nat (n : nat) :
  Z.of_nat n < 2 ^ 53 -> count n = Number_of_nat n.
Proof.
  intros Hn. apply Prim2SF_inj.
  rewrite count_spec, Number_of_nat_spec by exact Hn. reflexivity.
Qed.

(** The double of [n] is reached by the counter after [n] increments and
    not before. *)
Lemma Number_of_nat_counts_to (n : nat) :
  Z.of_nat n < 2 ^ 53 -> counts_to n (Number_of_nat n).
Proof.
  intros Hn. split.
  - apply count_Number_of_nat. exact Hn.
  - intros k Hk.
    rewrite FloatAxioms.ltb_spec, count_spec, Number_of_nat_spec by lia.
    unfold SFltb. rewrite integerZ_lt by lia. reflexivity.
Qed.

End Counting.

(** ** The loop, pass by pass *)

Section LoopFacts.

Context {imports : Imports}.

Lemma loop_unfold s fuel parameters error converged iteration console :
  loop s fuel parameters error converged iteration console
  = if (iteration <? maxIter s) && negb converged then
      match fuel with
      | O => None
      | S fuel' =>
          let '(parameters, error) := pass s parameters in
          if isNaN error then
            Some (result parameters error iteration, console)
          else
            loop s fuel' parameters error (error <=? tolerance s)
              (iteration + 1) (console ++ logged s parameters error)
      end
    else Some (result parameters error iteration, console).
Proof. destruct fuel; reflexivity. Qed.

Lemma loop_exit s fuel parameters error converged iteration console :
  (iteration <? maxIter s) && negb converged = false ->
  loop s fuel parameters error converged iteration console
  = Some (result parameters error iteration, console).
Proof.
  intros H. rewrite loop_unfold, H. reflexivity.
Qed.

Lemma loop_break s fuel parameters error iteration console p' e' :
  (iteration <? maxIter s) = true ->
  pass s parameters = (p', e') ->
  isNaN e' = true ->
  loop s (S fuel) parameters error false iteration console
  = Some (result p' e' iteration, console).
Proof.
  intros Hlt Hpass Hnan. rewrite loop_unfold, Hlt, Hpass, Hnan. reflexivity.
Qed.

Lemma loop_continue s fuel parameters error iteration console p' e' :
  (iteration <? maxIter s) = true ->
  pass s parameters = (p', e') ->
  isNaN e' = false ->
  loop s (S fuel) parameters error false iteration console
  = loop s fuel p' e' (e' <=? tolerance s) (iteration + 1)
      (console ++ logged s p' e').
Proof.
  intros Hlt Hpass Hnan. rewrite loop_unfold, Hlt, Hpass, Hnan. reflexivity.
Qed.

Lemma lines_S s n parameters error :
  lines s (S n) parameters error
  = lines s n parameters error
    ++ logged s (fst (after s (S n) parameters error))
                (snd (after s (S n) parameters error)).
Proof.
  unfold lines. rewrite seq_S, flat_map_app. simpl.
  rewrite app_nil_r. reflexivity.
Qed.

End LoopFacts.

(** ** The clamp *)

Section ClampFacts.

Lemma SFcompare_Eq_eq (a b : spec_float) :
  SFcompare a b = Some Eq ->
  (forall z, a <> S754_zero z) ->
  a = b.
Proof.
  intros H Hz.
  destruct a as [sa|sa| |sa ma ea], b as [sb|sb| |sb mb eb]; simpl in H;
    try discriminate; try (destruct sa; discriminate);
    try (destruct sb; discriminate).
  - exfalso. apply (Hz sa). reflexivity.
  - destruct sa, sb; try discriminate; reflexivity.
  - destruct sa, sb; try discriminate;
      destruct (ea ?= eb)%Z eqn:Ee; try discriminate;
      apply Z.compare_eq in Ee; subst eb;
      destruct (Pos.compare_cont Eq ma mb) eqn:Em; try discriminate;
      apply (Pos.compare_eq ma mb) in Em; subst mb; reflexivity.
Qed.

(** Two numbers with [lo <= v] and not [lo < v] are one number, unless they
    are the two zeros. *)
Lemma leb_not_ltb_eq (lo v : float) :
  is_zero lo = false ->
  (lo <=? v) = true -> (lo <? v) = false -> v = lo.
Proof.
  intros Hz Hle Hlt. apply Prim2SF_inj. symmetry.
  apply SFcompare_Eq_eq.
  - rewrite FloatAxioms.leb_spec in Hle. rewrite FloatAxioms.ltb_spec in Hlt.
    unfold SFleb in Hle. unfold SFltb in Hlt.
    destruct (SFcompare (Prim2SF lo) (Prim2SF v)) as [[]|]; congruence.
  - intros z E. unfold is_zero in Hz.
    rewrite FloatAxioms.eqb_spec, E in Hz.
    change (Prim2SF zero) with (S754_zero false) in Hz.
    destruct z; discriminate.
Qed.

Lemma is_pos_zero_spec (v : float) :
  is_pos_zero v = true -> Prim2SF v = S754_zero false.
Proof.
  unfold is_pos_zero. rewrite classify_spec. unfold SF64classify, SFclassify.
  destruct (Prim2SF v) as [[]|[]| |[] m e]; try discriminate;
    try reflexivity;
    destruct (Z.eqb _ _); discriminate.
Qed.

Lemma is_neg_zero_spec (v : float) :
  is_neg_zero v = true -> Prim2SF v = S754_zero true.
Proof.
  unfold is_neg_zero. rewrite classify_spec. unfold SF64classify, SFclassify.
  destruct (Prim2SF v) as [[]|[]| |[] m e]; try discriminate;
    try reflexivity;
    destruct (Z.eqb _ _); discriminate.
Qed.

Lemma zeros_leb (a b : float) (sa sb : bool) :
  Prim2SF a = S754_zero sa -> Prim2SF b = S754_zero sb -> (a <=? b) = true.
Proof.
  intros Ha Hb. rewrite FloatAxioms.leb_spec, Ha, Hb. reflexivity.
Qed.

(** [Math.max(lo, v)] on two numbers: one of the two, and at least [lo]. *)
Lemma Math_max_pair (lo v : float) :
  is_nan lo = false -> is_nan v = false ->
  Math_max [lo; v] = max_step lo v
  /\ is_nan (max_step lo v) = false
  /\ (lo <=? max_step lo v) = true
  /\ (max_step lo v = lo \/ max_step lo v = v).
Proof.
  intros Hlo Hv. unfold Math_max. simpl. unfold isNaN.
  rewrite Hlo, Hv. simpl. rewrite max_step_neg_infinity by exact Hlo.
  split; [reflexivity|]. unfold max_step.
  destruct (is_pos_zero v && is_neg_zero lo) eqn:Ez.
  - apply andb_prop in Ez. destruct Ez as [Ep En].
    apply is_pos_zero_spec in Ep. apply is_neg_zero_spec in En.
    repeat split; [exact Hv | exact (zeros_leb lo v _ _ En Ep) | right; reflexivity].
  - destruct (lo <? v) eqn:El.
    + repeat split; [exact Hv | apply ltb_leb; exact El | right; reflexivity].
    + repeat split; [exact Hlo | apply leb_refl; exact Hlo | left; reflexivity].
Qed.

(** [Math.min(m, hi)] on two numbers: one of the two, and at most [hi]. *)
Lemma Math_min_pair (m hi : float) :
  is_nan m = false -> is_nan hi = false ->
  Math_min [m; hi] = min_step m hi
  /\ is_nan (min_step m hi) = false
  /\ (min_step m hi <=? hi) = true
  /\ (min_step m hi = m \/ min_step m hi = hi).
Proof.
  intros Hm Hhi. unfold Math_min. simpl. unfold isNaN.
  rewrite Hm, Hhi. simpl. rewrite min_step_infinity by exact Hm.
  split; [reflexivity|]. unfold min_step.
  destruct (is_neg_zero hi && is_pos_zero m) eqn:Ez.
  - repeat split; [exact Hhi | apply leb_refl; exact Hhi | right; reflexivity].
  - destruct (hi <? m) eqn:El.
    + repeat split; [exact Hhi | apply leb_refl; exact Hhi | right; reflexivity].
    + repeat split;
        [exact Hm | apply ltb_false_leb; assumption | left; reflexivity].
Qed.

(** A clamp that is not [NaN] had no [NaN] among its three arguments. *)
Lemma clamp_not_nan (lo v hi : float) :
  isNaN (clamp lo v hi) = false ->
  is_nan lo = false /\ is_nan v = false /\ is_nan hi = false.
Proof.
  unfold clamp, Math_min, Math_max, isNaN. simpl. unfold isNaN.
  destruct (is_nan lo); simpl.
  - destruct (is_nan hi); simpl; intros H; vm_compute in H; discriminate.
  - destruct (is_nan v); simpl.
    + destruct (is_nan hi); simpl; intros H; vm_compute in H; discriminate.
    + destruct (is_nan hi); simpl.
      * rewrite orb_true_r. intros H; vm_compute in H; discriminate.
      * intros _. repeat split.
Qed.

(** The clamp lands between ordered bounds. *)
Lemma clamp_between (lo v hi : float) :
  (lo <=? hi) = true -> is_nan v = false ->
  (lo <=? clamp lo v hi) = true /\ (clamp lo v hi <=? hi) = true.
Proof.
  intros Hle Hv. destruct (leb_not_nan _ _ Hle) as [Hlo Hhi].
  destruct (Math_max_pair lo v Hlo Hv) as [Emax [Hm [Hlom _]]].
  unfold clamp. rewrite Emax.
  destruct (Math_min_pair (max_step lo v) hi Hm Hhi) as [Emin [_ [Hr Hc]]].
  rewrite Emin. split; [|exact Hr].
  destruct Hc as [E|E]; rewrite E; assumption.
Qed.

(** Between bounds that are not zero, the clamp changes nothing. *)
Lemma clamp_inside (lo v hi : float) :
  is_zero lo = false -> is_zero hi = false ->
  (lo <=? v) = true -> (v <=? hi) = true ->
  clamp lo v hi = v.
Proof.
  intros Zlo Zhi Hlo Hhi.
  destruct (leb_not_nan _ _ Hlo) as [Nlo Nv].
  destruct (leb_not_nan _ _ Hhi) as [_ Nhi].
  destruct (Math_max_pair lo v Nlo Nv) as [Emax _].
  assert (Em : max_step lo v = v).
  { unfold max_step.
    destruct (is_pos_zero v && is_neg_zero lo); [reflexivity|].
    destruct (lo <? v) eqn:El; [reflexivity|].
    symmetry. apply leb_not_ltb_eq; assumption. }
  unfold clamp. rewrite Emax, Em.
  destruct (Math_min_pair v hi Nv Nhi) as [Emin _]. rewrite Emin.
  unfold min_step.
  destruct (is_neg_zero hi && is_pos_zero v) eqn:Ez.
  - apply andb_prop in Ez. destruct Ez as [En _].
    apply is_neg_zero_spec in En. unfold is_zero in Zhi.
    rewrite FloatAxioms.eqb_spec, En in Zhi. discriminate.
  - rewrite (leb_ltb_false _ _ Hhi). reflexivity.
Qed.

Lemma get_set (a : list float) (k j : nat) (v : float) :
  JS.get (JS.set a k v) j = if (j =? k)%nat then v else JS.get a j.
Proof.
  unfold JS.get. revert a j.
  induction k as [|k IH]; intros a j.
  - destruct a, j; simpl; try reflexivity. destruct j; reflexivity.
  - destruct a as [|h t], j as [|j]; simpl; try reflexivity.
    + rewrite IH. destruct (j =? k)%nat; [reflexivity|].
      destruct j; reflexivity.
    + apply IH.
Qed.

Lemma clamp_fold_get (lo hi : list float) (len start : nat)
    (p : list float) (j : nat) :
  JS.get
    (fold_left
       (fun parameters k =>
          JS.set parameters k
            (clamp (JS.get lo k) (JS.get parameters k) (JS.get hi k)))
       (seq start len) p) j
  = if ((start <=? j) && (j <? start + len))%nat
    then clamp (JS.get lo j) (JS.get p j) (JS.get hi j)
    else JS.get p j.
Proof.
  revert start p. induction len as [|len IH]; intros start p; simpl.
  - replace (j <? start + 0)%nat with (j <? start)%nat by (f_equal; lia).
    destruct (start <=? j)%nat eqn:E1, (j <? start)%nat eqn:E2;
      try reflexivity.
    apply Nat.leb_le in E1. apply Nat.ltb_lt in E2. lia.
  - rewrite IH. rewrite !get_set.
    destruct (j =? start)%nat eqn:Ej.
    + apply Nat.eqb_eq in Ej. subst j.
      replace (S start <=? start)%nat with false
        by (symmetry; apply Nat.leb_gt; lia).
      replace (start <=? start)%nat with true
        by (symmetry; apply Nat.leb_le; lia).
      replace (start <? start + S len)%nat with true
        by (symmetry; apply Nat.ltb_lt; lia).
      reflexivity.
    + apply Nat.eqb_neq in Ej.
      destruct (S start <=? j)%nat eqn:E1.
      * apply Nat.leb_le in E1.
        replace (start <=? j)%nat with true
          by (symmetry; apply Nat.leb_le; lia).
        replace (j <? start + S len)%nat with (j <? S start + len)%nat
          by (f_equal; lia).
        reflexivity.
      * apply Nat.leb_gt in E1.
        replace (start <=? j)%nat with false
          by (symmetry; apply Nat.leb_gt; lia).
        reflexivity.
Qed.

(** After the inner loop, entry [k] below [parLen] is the clamp of what
    [step] put there, and the entries from [parLen] on are as [step] left
    them. *)
Lemma clampAll_get (n : nat) (lo hi p : list float) (k : nat) :
  JS.get (clampAll n lo hi p) k
  = if (k <? n)%nat
    then clamp (JS.get lo k) (JS.get p k) (JS.get hi k)
    else JS.get p k.
Proof.
  unfold clampAll. rewrite clamp_fold_get. reflexivity.
Qed.

End ClampFacts.

(** ** Runs of the entry point *)

Section Runs.

Context {imports : Imports}.

(** An accepted call is the loop started on the start values. *)
Lemma accepted_run fuel data pf options s p0 :
  prepare data pf options = inr (s, p0) ->
  levenbergMarquardt fuel data pf options
  = match
      loop s fuel p0 (errorCalculation (xs s) (ys s) p0 (f s))
        (errorCalculation (xs s) (ys s) p0 (f s) <=? tolerance s) 0 []
    with
    | Some (r, console) => Some (Return r, console)
    | None => None
    end.
Proof.
  intros H. unfold levenbergMarquardt. rewrite H. reflexivity.
Qed.

Lemma running_S s n p e :
  running s (S n) p e ->
  running s n p e
  /\ (count n <? maxIter s) = true
  /\ (snd (after s n p e) <=? tolerance s) = false
  /\ isNaN (snd (after s (S n) p e)) = false.
Proof.
  intros H. split.
  - intros j Hj. apply H. lia.
  - apply H. lia.
Qed.

(** While the passes go on, the loop is where [after] says. *)
Lemma run_prefix s n fuel p e :
  running s n p e ->
  loop s (n + fuel) p e (e <=? tolerance s) 0 []
  = loop s fuel (fst (after s n p e)) (snd (after s n p e))
      (snd (after s n p e) <=? tolerance s) (count n) (lines s n p e).
Proof.
  revert fuel. induction n as [|n IH]; intros fuel Hrun.
  - reflexivity.
  - apply running_S in Hrun. destruct Hrun as [Hrun [Hlt [Htol Hnan]]].
    replace (S n + fuel)%nat with (n + S fuel)%nat by lia.
    rewrite (IH (S fuel) Hrun), Htol.
    rewrite (loop_continue s fuel _ _ _ _
               (fst (after s (S n) p e)) (snd (after s (S n) p e)) Hlt).
    + rewrite lines_S. reflexivity.
    + exact (surjective_pairing (after s (S n) p e)).
    + exact Hnan.
Qed.

Lemma ltb_irrefl (a : float) : (a <? a) = false.
Proof.
  destruct (a <? a) eqn:E; [|reflexivity].
  rewrite (leb_ltb_false a a (ltb_leb a a E)) in E. discriminate.
Qed.

Lemma counts_to_leb n m k :
  counts_to n m -> (k <= n)%nat -> (count k <=? m) = true.
Proof.
  intros [Hn Hk] Hle.
  destruct (Nat.eq_dec k n) as [->|Hne].
  - rewrite Hn. apply leb_refl.
    destruct n as [|n].
    + rewrite <- Hn. reflexivity.
    + exact (proj2 (ltb_not_nan _ _ (Hk 0%nat (Nat.lt_0_succ n)))).
  - apply ltb_leb. apply Hk. lia.
Qed.

(** The counter never passes a cap it counts to. *)
Lemma loop_iterations s n fuel : forall k p e c console r console',
  counts_to n (maxIter s) -> (k <= n)%nat ->
  loop s fuel p e c (count k) console = Some (r, console') ->
  (iterations r <=? maxIter s) = true.
Proof.
  induction fuel as [|fuel IH]; intros k p e c console r console' Hn Hk;
    rewrite loop_unfold;
    destruct ((count k <? maxIter s) && negb c) eqn:Hc;
    try discriminate;
    try (intros H; injection H as <- _; simpl;
         apply (counts_to_leb n); assumption).
  apply andb_prop in Hc. destruct Hc as [Hlt _].
  assert (Hkn : (S k <= n)%nat).
  { destruct (Nat.eq_dec k n) as [->|]; [|lia].
    destruct Hn as [Hn _]. rewrite Hn, ltb_irrefl in Hlt. discriminate. }
  destruct (pass s p) as [p' e']. destruct (isNaN e').
  - intros H; injection H as <- _; simpl.
    apply (counts_to_leb n); assumption.
  - apply (IH (S k)); assumption.
Qed.

(** The parameters a run returns are the start values, untouched and with a
    counter still at its start, or come out of the clamp. *)
Lemma loop_parameters s fuel : forall p e c it console r console',
  loop s fuel p e c it console = Some (r, console') ->
  (parameterValues r = p /\ iterations r = it)
  \/ exists q,
       parameterValues r = clampAll (parLen s) (lower s) (upper s) q.
Proof.
  induction fuel as [|fuel IH]; intros p e c it console r console';
    rewrite loop_unfold;
    destruct ((it <? maxIter s) && negb c);
    try discriminate;
    try (intros H; injection H as <- _; left; split; reflexivity).
  destruct (pass s p) as [p' e'] eqn:Hpass.
  assert (Hq : exists q,
             p' = clampAll (parLen s) (lower s) (upper s) q).
  { unfold pass in Hpass. injection Hpass as <- _. eexists. reflexivity. }
  destruct (isNaN e').
  - intros H; injection H as <- _. right. exact Hq.
  - intros H. apply IH in H. destruct H as [[Hp _]|H]; [|right; exact H].
    right. destruct Hq as [q Hq]. exists q. rewrite Hp. exact Hq.
Qed.

(** The console holds the lines of the passes that went on, and the counter
    their number. *)
Lemma loop_console s p0 e0 fuel : forall k c r console,
  loop s fuel (fst (after s k p0 e0)) (snd (after s k p0 e0)) c (count k)
    (lines s k p0 e0) = Some (r, console) ->
  exists n, iterations r = count n /\ console = lines s n p0 e0.
Proof.
  induction fuel as [|fuel IH]; intros k c r console;
    rewrite loop_unfold;
    destruct ((count k <? maxIter s) && negb c);
    try discriminate;
    try (intros H; injection H as <- <-; exists k; split; reflexivity).
  destruct (pass s (fst (after s k p0 e0))) as [p' e'] eqn:Hpass.
  destruct (isNaN e').
  - intros H; injection H as <- <-; exists k; split; reflexivity.
  - intros H. apply (IH (S k) (e' <=? tolerance s)).
    rewrite lines_S.
    change (after s (S k) p0 e0) with (pass s (fst (after s k p0 e0))).
    rewrite Hpass. exact H.
Qed.

Lemma lines_logging s n p e :
  lines s n p e
  = if logging s
    then map (fun j => ConsoleLog (snd (after s j p e)) (fst (after s j p e)))
           (seq 1 n)
    else [].
Proof.
  unfold lines, logged. destruct (logging s).
  - induction (seq 1 n) as [|j l IH]; simpl; [reflexivity|].
    rewrite IH. reflexivity.
  - induction (seq 1 n) as [|j l IH]; simpl; [reflexivity|exact IH].
Qed.

End Runs.

(** ** What [prepare] accepts *)

Section Prepared.

Lemma get_repeat (v : float) (n k : nat) :
  (k < n)%nat -> JS.get (repeat v n) k = v.
Proof.
  unfold JS.get. revert k. induction n as [|n IH]; intros k Hk; [lia|].
  destruct k as [|k]; simpl; [reflexivity | apply IH; lia].
Qed.

(** The setup of an accepted call, field by field. *)
Lemma prepare_accepted data pf options s p0 :
  prepare data pf options = inr (s, p0) ->
  maxIter s = defaulted (Options.maxIterations options) 100
  /\ tolerance s = defaulted (Options.errorTolerance options) 10e-3
  /\ logging s = Options.logAfterIteration options
  /\ parLen s = List.length p0
  /\ lower s
     = defaulted (Options.minValues options)
         (repeat MIN_SAFE_INTEGER (List.length p0))
  /\ upper s
     = defaulted (Options.maxValues options)
         (repeat MAX_SAFE_INTEGER (List.length p0))
  /\ List.length (upper s) = List.length (lower s)
  /\ JS.or (Options.initialValues options)
       (JS.Array (repeat 1 (length pf))) = JS.Array p0.
Proof.
  unfold prepare. intros H.
  repeat match type of H with
         | context [if ?c then _ else _] =>
             let E := fresh "E" in destruct c eqn:E; [discriminate|]
         end.
  simpl JS.new_Array_fill in *.
  destruct (JS.or (Options.initialValues options)
              (JS.Array (repeat 1 (length pf)))) as [| | | | | |l] eqn:Ep;
    try discriminate.
  injection H as <- <-. simpl in *.
  match goal with
  | E : negb (List.length _ =? List.length _)%nat = false |- _ =>
      apply negb_false_iff, Nat.eqb_eq in E;
      repeat split; try reflexivity; exact E
  end.
Qed.

End Prepared.

(** ** The claims on the loop *)

Section Claims.

Context {imports : Imports}.

(** A run whose error is within tolerance after [n] passes returns there. *)
Lemma run_converged data pf options s p0 n fuel :
  prepare data pf options = inr (s, p0) ->
  running s n p0 (errorCalculation (xs s) (ys s) p0 (f s)) ->
  (snd (after s n p0 (errorCalculation (xs s) (ys s) p0 (f s)))
   <=? tolerance s) = true ->
  levenbergMarquardt (n + fuel) data pf options
  = Some
      (Return
         (result
            (fst (after s n p0 (errorCalculation (xs s) (ys s) p0 (f s))))
            (snd (after s n p0 (errorCalculation (xs s) (ys s) p0 (f s))))
            (count n)),
       lines s n p0 (errorCalculation (xs s) (ys s) p0 (f s))).
Proof.
  intros Hp Hrun Htol.
  rewrite (accepted_run _ _ _ _ _ _ Hp), (run_prefix _ _ _ _ _ Hrun).
  rewrite loop_exit; [reflexivity|].
  rewrite Htol. apply andb_false_r.
Qed.

(** A run whose pass [i] computes a [NaN] error returns there. *)
Lemma run_diverged data pf options s p0 i fuel :
  prepare data pf options = inr (s, p0) ->
  running s i p0 (errorCalculation (xs s) (ys s) p0 (f s)) ->
  (count i <? maxIter s) = true ->
  (snd (after s i p0 (errorCalculation (xs s) (ys s) p0 (f s)))
   <=? tolerance s) = false ->
  isNaN (snd (after s (S i) p0 (errorCalculation (xs s) (ys s) p0 (f s))))
  = true ->
  levenbergMarquardt (i + S fuel) data pf options
  = Some
      (Return
         (result
            (fst (after s (S i) p0 (errorCalculation (xs s) (ys s) p0 (f s))))
            (snd (after s (S i) p0 (errorCalculation (xs s) (ys s) p0 (f s))))
            (count i)),
       lines s i p0 (errorCalculation (xs s) (ys s) p0 (f s))).
Proof.
  intros Hp Hrun Hlt Htol Hnan.
  rewrite (accepted_run _ _ _ _ _ _ Hp), (run_prefix _ _ _ _ _ Hrun), Htol.
  rewrite (loop_break s fuel _ _ _ _
             (fst (after s (S i) p0 (errorCalculation (xs s) (ys s) p0 (f s))))
             (snd (after s (S i) p0 (errorCalculation (xs s) (ys s) p0 (f s))))
             Hlt);
    [reflexivity | | exact Hnan].
  exact (surjective_pairing
           (after s (S i) p0 (errorCalculation (xs s) (ys s) p0 (f s)))).
Qed.

(** C1. The start values are [initialValues], or as many ones as the
    function to fit declares parameters.  When the error computed from them
    is within the tolerance, the call returns at once: the start values as
    given, that error, zero iterations, nothing logged.  And when the error
    recomputed by pass [n] of a run is the first within the tolerance, the
    call returns the parameters and the error of that pass, with [n] on the
    counter: no further pass runs. *)
Theorem C1_converged_run_stops :
  forall data pf options s p0,
    prepare data pf options = inr (s, p0) ->
    let e0 := errorCalculation (xs s) (ys s) p0 (f s) in
    JS.or (Options.initialValues options) (JS.Array (repeat 1 (length pf)))
    = JS.Array p0
    /\ ((e0 <=? tolerance s) = true ->
        forall fuel,
          levenbergMarquardt fuel data pf options
          = Some (Return (result p0 e0 0), []))
    /\ (forall n,
          running s n p0 e0 ->
          (snd (after s n p0 e0) <=? tolerance s) = true ->
          forall fuel,
            levenbergMarquardt (n + fuel) data pf options
            = Some
                (Return
                   (result (fst (after s n p0 e0)) (snd (after s n p0 e0))
                      (count n)),
                 lines s n p0 e0)).
Proof.
  intros data pf options s p0 Hp e0. split; [|split].
  - apply (prepare_accepted _ _ _ _ _ Hp).
  - intros Htol fuel.
    apply (run_converged data pf options s p0 0 fuel Hp); [|exact Htol].
    intros j Hj. lia.
  - intros n Hrun Htol fuel.
    exact (run_converged data pf options s p0 n fuel Hp Hrun Htol).
Qed.

(** C2. When the error recomputed by pass [i] is [NaN], the call returns
    from that pass: the parameters that pass stepped to and clamped, its
    [NaN] error, and the lines of the passes before it; the parameters and
    the error of the pass before are not brought back. *)
Theorem C2_nan_error_stops_the_loop :
  forall data pf options s p0 i,
    prepare data pf options = inr (s, p0) ->
    let e0 := errorCalculation (xs s) (ys s) p0 (f s) in
    running s i p0 e0 ->
    (count i <? maxIter s) = true ->
    (snd (after s i p0 e0) <=? tolerance s) = false ->
    isNaN (snd (after s (S i) p0 e0)) = true ->
    forall fuel,
    exists r,
      levenbergMarquardt (i + S fuel) data pf options
      = Some (Return r, lines s i p0 e0)
      /\ (parameterValues r, parameterError r)
         = pass s (fst (after s i p0 e0))
      /\ isNaN (parameterError r) = true.
Proof.
  intros data pf options s p0 i Hp e0 Hrun Hlt Htol Hnan fuel.
  eexists. split; [|split].
  - exact (run_diverged data pf options s p0 i fuel Hp Hrun Hlt Htol Hnan).
  - symmetry. exact (surjective_pairing (after s (S i) p0 e0)).
  - exact Hnan.
Qed.

(** C9. When the error is first [NaN] in the pass of index [i], counted
    from zero, the call returns the counter as it stood when the pass was
    entered, after [i] increments: the double of [i].  So a [NaN] in the
    very first pass returns zero iterations, as a call that converges on
    its start values does. *)
Theorem C9_nan_pass_is_not_counted :
  forall data pf options s p0,
    prepare data pf options = inr (s, p0) ->
    let e0 := errorCalculation (xs s) (ys s) p0 (f s) in
    (forall i,
       (Z.of_nat i < 2 ^ 53)%Z ->
       running s i p0 e0 ->
       (count i <? maxIter s) = true ->
       (snd (after s i p0 e0) <=? tolerance s) = false ->
       isNaN (snd (after s (S i) p0 e0)) = true ->
       forall fuel,
       exists r console,
         levenbergMarquardt (i + S fuel) data pf options
         = Some (Return r, console)
         /\ iterations r = count i
         /\ iterations r = Number_of_nat i)
    /\ ((0 <? maxIter s) = true ->
        (e0 <=? tolerance s) = false ->
        isNaN (snd (pass s p0)) = true ->
        forall fuel,
        exists r console,
          levenbergMarquardt (S fuel) data pf options
          = Some (Return r, console)
          /\ iterations r = 0)
    /\ ((e0 <=? tolerance s) = true ->
        forall fuel,
        exists r console,
          levenbergMarquardt (S fuel) data pf options
          = Some (Return r, console)
          /\ iterations r = 0).
Proof.
  intros data pf options s p0 Hp e0. split; [|split].
  - intros i Hi Hrun Hlt Htol Hnan fuel. eexists. eexists. split; [|split].
    + exact (run_diverged data pf options s p0 i fuel Hp Hrun Hlt Htol Hnan).
    + reflexivity.
    + apply count_Number_of_nat. exact Hi.
  - intros Hlt Htol Hnan fuel. eexists. eexists. split.
    + apply (run_diverged data pf options s p0 0 fuel Hp);
        [intros j Hj; lia | exact Hlt | exact Htol | exact Hnan].
    + reflexivity.
  - intros Htol fuel. eexists. eexists. split.
    + apply (run_converged data pf options s p0 0 (S fuel) Hp);
        [intros j Hj; lia | exact Htol].
    + reflexivity.
Qed.

(** A loop whose cap is counted to in [n] increments ends within [n]
    passes. *)
Lemma loop_terminates s n fuel : forall k p e c console,
  counts_to n (maxIter s) -> (k <= n)%nat -> (n <= k + fuel)%nat ->
  exists r console',
    loop s fuel p e c (count k) console = Some (r, console').
Proof.
  induction fuel as [|fuel IH]; intros k p e c console Hn Hkn Hk;
    rewrite loop_unfold;
    destruct ((count k <? maxIter s) && negb c) eqn:Hc;
    try (eexists; eexists; reflexivity);
    apply andb_prop in Hc; destruct Hc as [Hlt _];
    assert (Hne : k <> n)
      by (intros ->; destruct Hn as [Hn _];
          rewrite Hn, ltb_irrefl in Hlt; discriminate).
  - lia.
  - destruct (pass s p) as [p' e']. destruct (isNaN e').
    + eexists; eexists; reflexivity.
    + apply (IH (S k)); [exact Hn | lia | lia].
Qed.

(** C4, amended. When [maxIterations] (given, or 100 by default) is a
    non-negative integer [n] below 2^53, the call returns within [n] passes
    and the iterations it returns do not exceed [maxIterations]. *)
Theorem C4_iterations_within_an_integer_cap :
  forall data pf options s p0 n,
    prepare data pf options = inr (s, p0) ->
    (Z.of_nat n < 2 ^ 53)%Z ->
    defaulted (Options.maxIterations options) 100 = Number_of_nat n ->
    (forall fuel, (n <= fuel)%nat ->
       exists r console,
         levenbergMarquardt fuel data pf options = Some (Return r, console))
    /\ (forall fuel r console,
          levenbergMarquardt fuel data pf options = Some (Return r, console) ->
          (iterations r <=? defaulted (Options.maxIterations options) 100)
          = true).
Proof.
  intros data pf options s p0 n Hp Hlt Hcap.
  pose proof (Number_of_nat_counts_to n Hlt) as Hn. rewrite <- Hcap in Hn.
  destruct (prepare_accepted _ _ _ _ _ Hp) as [Hmax _].
  rewrite <- Hmax in *. split.
  - intros fuel Hfuel. rewrite (accepted_run _ _ _ _ _ _ Hp).
    destruct (loop_terminates s n fuel 0 p0
                (errorCalculation (xs s) (ys s) p0 (f s))
                (errorCalculation (xs s) (ys s) p0 (f s) <=? tolerance s)
                [] Hn (Nat.le_0_l n)) as [r [console H]]; [lia|].
    change (count 0) with 0 in H. rewrite H.
    exists r, console. reflexivity.
  - intros fuel r console. rewrite (accepted_run _ _ _ _ _ _ Hp).
    destruct (loop s fuel p0 _ _ 0 []) as [[r' console']|] eqn:H;
      [|discriminate].
    intros E. injection E as <- <-.
    apply (loop_iterations s n fuel 0 _ _ _ _ _ _ Hn (Nat.le_0_l n) H).
Qed.

(** C3, amended. The parameters a call returns are either the start
    values, as given and with zero iterations, or values that went through
    the clamp: then every entry below the number of start values that is a
    number lies within its bounds, when the lower bound is at most the
    upper one. *)
Theorem C3_clamped_after_a_pass :
  forall fuel data pf options s p0 r console,
    prepare data pf options = inr (s, p0) ->
    levenbergMarquardt fuel data pf options = Some (Return r, console) ->
    (parameterValues r = p0 /\ iterations r = 0)
    \/ (forall k,
          (k < List.length p0)%nat ->
          (JS.get (lower s) k <=? JS.get (upper s) k) = true ->
          isNaN (JS.get (parameterValues r) k) = false ->
          (JS.get (lower s) k <=? JS.get (parameterValues r) k) = true
          /\ (JS.get (parameterValues r) k <=? JS.get (upper s) k) = true).
Proof.
  intros fuel data pf options s p0 r console Hp.
  rewrite (accepted_run _ _ _ _ _ _ Hp).
  destruct (loop s fuel p0 _ _ 0 []) as [[r' console']|] eqn:H;
    [|discriminate].
  intros E. injection E as <- <-.
  apply loop_parameters in H. destruct H as [H|[q Hq]]; [left; exact H|].
  right. intros k Hk Hle Hnan.
  destruct (prepare_accepted _ _ _ _ _ Hp) as [_ [_ [_ [Hlen _]]]].
  rewrite Hq, clampAll_get in *. rewrite Hlen in *.
  replace (k <? List.length p0)%nat with true in *
    by (symmetry; apply Nat.ltb_lt; exact Hk).
  apply clamp_between; [exact Hle|].
  exact (proj1 (proj2 (clamp_not_nan _ _ _ Hnan))).
Qed.

(** C8, amended. No property [onIteration] of the options is read: a call
    does the same with and without one.  What a call leaves besides its
    result is the console: one line with the error and the parameters after
    each pass that went on, when [logAfterIteration] is set, and nothing
    otherwise; the passes that went on are the iterations returned. *)
Theorem C8_console_is_the_only_side_channel :
  (forall fuel data pf options observer,
     levenbergMarquardt fuel data pf (Options.with_onIteration options observer)
     = levenbergMarquardt fuel data pf options)
  /\ (forall fuel data pf options s p0 r console,
        prepare data pf options = inr (s, p0) ->
        levenbergMarquardt fuel data pf options = Some (Return r, console) ->
        let e0 := errorCalculation (xs s) (ys s) p0 (f s) in
        exists n,
          iterations r = count n
          /\ console
             = if Options.logAfterIteration options
               then map (fun j => ConsoleLog (snd (after s j p0 e0))
                                    (fst (after s j p0 e0)))
                      (seq 1 n)
               else []).
Proof.
  split.
  - intros fuel data pf options observer. reflexivity.
  - intros fuel data pf options s p0 r console Hp.
    rewrite (accepted_run _ _ _ _ _ _ Hp).
    destruct (loop s fuel p0 _ _ 0 []) as [[r' console']|] eqn:H;
      [|discriminate].
    intros E. injection E as <- <-. intros e0.
    destruct (loop_console s p0 e0 fuel 0 _ _ _ H) as [n [Hn Hc]].
    exists n. split; [exact Hn|].
    destruct (prepare_accepted _ _ _ _ _ Hp) as [_ [_ [Hlog _]]].
    rewrite Hc, lines_logging, Hlog. reflexivity.
Qed.

End Claims.

(** ** The claims on the checks, the bounds and the alignment *)

Section Checks.

Context {imports : Imports}.

(** A call throws exactly when [prepare] does, with no effect before. *)
Lemma throws_iff fuel data pf options message console :
  levenbergMarquardt fuel data pf options = Some (Throw message, console)
  <-> prepare data pf options = inl message /\ console = [].
Proof.
  unfold levenbergMarquardt.
  destruct (prepare data pf options) as [m|[s p0]].
  - split.
    + intros H. injection H as -> <-. split; reflexivity.
    + intros [H ->]. injection H as ->. reflexivity.
  - split.
    + destruct (loop s fuel p0 _ _ 0 []) as [[r c]|]; discriminate.
    + intros [H _]. discriminate.
Qed.

(** The checks of [prepare], as one test. *)
Lemma prepare_rejects data pf options :
  match prepare data pf options with inl _ => true | inr _ => false end
  = rejects JS.truthy data pf options.
Proof.
  unfold prepare, rejects.
  destruct data as [x y], options as [mi gd d et lo hi iv al lg ob]; simpl.
  assert (Hd : (defaulted d 0 <=? 0)
               = match d with None => true | Some d => d <=? 0 end)
    by (destruct d; reflexivity).
  rewrite Hd. clear Hd.
  destruct (match d with None => true | Some d => d <=? 0 end);
    [reflexivity|]. simpl.
  destruct x as [| |bx|nx|sx| |lx]; simpl;
    try reflexivity;
    try (match goal with
         | |- match (if ?c then _ else _) with inl _ => _ | inr _ => _ end = _ =>
             destruct c
         end; reflexivity).
  destruct y as [| |by'|ny|sy| |ly]; simpl;
    try reflexivity;
    try (rewrite ?orb_true_r; simpl; try reflexivity;
         match goal with
         | |- match (if ?c then _ else _) with inl _ => _ | inr _ => _ end = _ =>
             destruct c
         end; reflexivity).
  destruct (List.length lx <? 2)%nat; simpl; [reflexivity|].
  destruct (List.length ly <? 2)%nat; simpl; [reflexivity|].
  destruct (List.length lx =? List.length ly)%nat; simpl; [|reflexivity].
  unfold JS.or.
  destruct (JS.truthy iv) eqn:Et.
  - destruct iv as [| |bi|ni|si| |li]; simpl in *;
      try discriminate;
      try (rewrite orb_true_r;
           match goal with
           | |- match (if ?c then _ else _) with inl _ => _ | inr _ => _ end = _ =>
             destruct c
           end; reflexivity).
    rewrite orb_false_r. rewrite (Nat.eqb_sym (List.length (defaulted hi _))).
    match goal with
    | |- match (if ?c then _ else _) with inl _ => _ | inr _ => _ end = _ =>
        destruct c
    end; reflexivity.
  - assert (Hi : JS.isArray iv = false)
      by (destruct iv; try reflexivity; discriminate).
    rewrite Hi. simpl. rewrite orb_false_r.
    rewrite repeat_length.
    rewrite (Nat.eqb_sym (List.length (defaulted hi _))).
    match goal with
    | |- match (if ?c then _ else _) with inl _ => _ | inr _ => _ end = _ =>
        destruct c
    end; reflexivity.
Qed.

(** C5, amended. A call throws, before any pass and with nothing logged,
    exactly when the damping is missing or not positive, or the data lacks
    [x] or [y], or one of them is not a sequence or has fewer than two
    elements, or their lengths differ, or the bounds (given, or by default
    as long as the start values) differ in length, or the start values are
    truthy and not a sequence; start values that are falsy ([undefined],
    [null], [false], [0], [NaN], the empty string) count as absent.  A
    damping of zero, [x] and [y] of different lengths, and an [x] of one
    element each throw. *)
Theorem C5_throws_exactly_when_rejected :
  (forall fuel data pf options,
     (exists message,
        levenbergMarquardt fuel data pf options = Some (Throw message, []))
     <-> rejects JS.truthy data pf options = true)
  /\ (forall fuel data pf options,
        levenbergMarquardt fuel data pf
          (Options.with_damping options (Some 0))
        = Some (Throw "The damping option must be a positive number", []))
  /\ (forall fuel pf options xs ys,
        (List.length xs =? List.length ys)%nat = false ->
        exists message,
          levenbergMarquardt fuel
            {| Data.x := JS.Array xs; Data.y := JS.Array ys |} pf options
          = Some (Throw message, []))
  /\ (forall fuel pf options v y,
        exists message,
          levenbergMarquardt fuel
            {| Data.x := JS.Array [v]; Data.y := y |} pf options
          = Some (Throw message, [])).
Proof.
  assert (Hiff : forall fuel data pf options,
             (exists message,
                levenbergMarquardt fuel data pf options
                = Some (Throw message, []))
             <-> rejects JS.truthy data pf options = true).
  { intros fuel data pf options. rewrite <- prepare_rejects. split.
    - intros [message H]. apply throws_iff in H. destruct H as [H _].
      rewrite H. reflexivity.
    - destruct (prepare data pf options) as [message|] eqn:H;
        [|discriminate].
      intros _. exists message. apply throws_iff.
      split; [exact H | reflexivity]. }
  split; [exact Hiff|]. split; [|split].
  - intros fuel data pf options. apply throws_iff. split; reflexivity.
  - intros fuel pf options xs ys Hlen. apply Hiff.
    unfold rejects. simpl. rewrite Hlen. simpl.
    rewrite ?orb_true_r. reflexivity.
  - intros fuel pf options v y. apply Hiff.
    unfold rejects. simpl. rewrite ?orb_true_r. reflexivity.
Qed.

(** C10. Bounds of one length are accepted whatever the number of
    parameters: a call accepted without bounds is accepted with any two
    bounds of equal length, which become the bounds of the run, and it does
    not throw. *)
Theorem C10_bounds_are_measured_against_each_other :
  forall data pf options s p0 lo hi,
    prepare data pf (Options.with_bounds options None None) = inr (s, p0) ->
    List.length lo = List.length hi ->
    (exists s',
       prepare data pf (Options.with_bounds options (Some lo) (Some hi))
       = inr (s', p0)
       /\ lower s' = lo /\ upper s' = hi /\ parLen s' = List.length p0)
    /\ (forall fuel message console,
          levenbergMarquardt fuel data pf
            (Options.with_bounds options (Some lo) (Some hi))
          <> Some (Throw message, console)).
Proof.
  intros data pf options s p0 lo hi Hp Hlen.
  assert (H : exists s',
             prepare data pf (Options.with_bounds options (Some lo) (Some hi))
             = inr (s', p0)
             /\ lower s' = lo /\ upper s' = hi
             /\ parLen s' = List.length p0).
  { revert Hp. unfold prepare. simpl.
    repeat match goal with
           | |- context [if ?c then inl _ else _] =>
               destruct c eqn:?; [discriminate|]
           end.
    rewrite Hlen, Nat.eqb_refl. simpl.
    intros E. injection E as _ <-.
    destruct (JS.or (Options.initialValues options)
                (JS.Array (repeat 1 (length pf))))
      as [| | | | | |l]; simpl in *; try discriminate.
    eexists. split; [reflexivity|]. simpl. repeat split. }
  split; [exact H|].
  intros fuel message console E. apply throws_iff in E.
  destruct H as [s' [H _]]. destruct E as [E _]. congruence.
Qed.

End Checks.

(** ** Operations that round nothing away *)

Section ExactOperations.

(** The difference of two equal numbers is a zero, or [NaN] when they are
    one infinity. *)
Lemma SFsub_equal (a b : spec_float) :
  SFcompare a b = Some Eq -> zero_or_nan (SFsub 53 1024 a b).
Proof.
  destruct a as [sa|sa| |sa ma ea], b as [sb|sb| |sb mb eb]; simpl;
    try discriminate;
    try (destruct sa; discriminate); try (destruct sb; discriminate).
  - intros _. destruct sa, sb; exact I.
  - destruct sa, sb; try discriminate; intros _; exact I.
  - destruct sa, sb; try discriminate;
      destruct (ea ?= eb)%Z eqn:Ee; try discriminate;
      apply Z.compare_eq in Ee; subst eb;
      destruct (Pos.compare_cont Eq ma mb) eqn:Em; try discriminate;
      apply (Pos.compare_eq ma mb) in Em; subst mb; intros _;
      rewrite Z.sub_diag; exact I.
Qed.

Lemma SFdiv_by_zero_or_nan (a b : spec_float) :
  zero_or_nan b -> not_finite (SFdiv 53 1024 a b).
Proof.
  destruct a as [sa|sa| |sa ma ea], b as [sb|sb| |sb mb eb]; simpl;
    intros H; try exact I; try contradiction.
Qed.




End ExactOperations.

Section BoundsAndAlignment.

(** C7, amended. Without [minValues] and [maxValues] the bounds are, for
    each start value, [Number.MIN_SAFE_INTEGER] and
    [Number.MAX_SAFE_INTEGER], that is -(2^53 - 1) and 2^53 - 1; the clamp
    leaves every parameter between these two as it is. *)
Theorem C7_default_bounds_are_the_safe_integers :
  forall data pf options s p0,
    Options.minValues options = None ->
    Options.maxValues options = None ->
    prepare data pf options = inr (s, p0) ->
    lower s = repeat MIN_SAFE_INTEGER (List.length p0)
    /\ upper s = repeat MAX_SAFE_INTEGER (List.length p0)
    /\ (forall q k,
          (k < List.length p0)%nat ->
          (MIN_SAFE_INTEGER <=? JS.get q k) = true ->
          (JS.get q k <=? MAX_SAFE_INTEGER) = true ->
          JS.get (clampAll (parLen s) (lower s) (upper s) q) k = JS.get q k).
Proof.
  intros data pf options s p0 Hlo Hhi Hp.
  destruct (prepare_accepted _ _ _ _ _ Hp)
    as [_ [_ [_ [Hlen [Hlower [Hupper _]]]]]].
  rewrite Hlo in Hlower. rewrite Hhi in Hupper. simpl in Hlower, Hupper.
  split; [exact Hlower|]. split; [exact Hupper|].
  intros q k Hk Hmin Hmax.
  rewrite clampAll_get, Hlen, Hlower, Hupper.
  replace (k <? List.length p0)%nat with true
    by (symmetry; apply Nat.ltb_lt; exact Hk).
  rewrite !get_repeat by exact Hk.
  apply clamp_inside; [reflexivity | reflexivity | exact Hmin | exact Hmax].
Qed.


End BoundsAndAlignment.

(** ** Concrete runs *)

Section ConcreteRuns.

Import Helpers Examples.

Lemma C1_witness :
  (exists r,
     fit 0 onLine line fromExact = Some (Return r, [])
     /\ parameterValues r = [2; 1] /\ iterations r = 0)
  /\ (exists r console,
        fit 3 onLine line fromOrigin = Some (Return r, console)
        /\ iterations r = 3 /\ List.length console = 3%nat).
Proof.
  split.
  - destruct (@C1_converged_run_stops imports onLine line fromExact _ _ eq_refl)
      as [_ [H _]].
    eexists. split; [exact (H eq_refl 0%nat)|]. split; reflexivity.
  - destruct (@C1_converged_run_stops imports onLine line fromOrigin _ _ eq_refl)
      as [_ [_ H]].
    eexists. eexists. split.
    + refine (H 3%nat _ _ 0%nat).
      * intros j Hj.
        destruct j as [|[|[|j]]]; [vm_compute; repeat split ..| lia].
      * vm_compute. reflexivity.
    + split; vm_compute; reflexivity.
Defined.

Lemma C2_witness :
  exists r console,
    fit 2 onLine slope heldAtZero = Some (Return r, console)
    /\ isNaN (parameterError r) = true
    /\ List.length console = 1%nat.
Proof.
  destruct (@C2_nan_error_stops_the_loop imports onLine slope heldAtZero
              _ _ 1%nat eq_refl) with (fuel := 0%nat) as [r [H [_ Hnan]]].
  - intros j Hj. destruct j as [|j]; [vm_compute; repeat split | lia].
  - vm_compute. reflexivity.
  - vm_compute. reflexivity.
  - vm_compute. reflexivity.
  - exists r. eexists. split; [exact H|]. split; [exact Hnan|].
    vm_compute. reflexivity.
Defined.

Lemma C9_witness :
  exists r console,
    fit 2 onLine slope heldAtZero = Some (Return r, console)
    /\ iterations r = 1.
Proof.
  destruct (@C9_nan_pass_is_not_counted imports onLine slope heldAtZero
              _ _ eq_refl) as [H _].
  destruct (H 1%nat) with (fuel := 0%nat) as [r [console [Hr [Hi _]]]].
  - vm_compute. reflexivity.
  - intros j Hj. destruct j as [|j]; [vm_compute; repeat split | lia].
  - vm_compute. reflexivity.
  - vm_compute. reflexivity.
  - vm_compute. reflexivity.
  - exists r, console. split; [exact Hr|]. rewrite Hi. reflexivity.
Defined.

Lemma C4_witness :
  exists r console,
    fit 50 onLine line fromOrigin = Some (Return r, console)
    /\ (iterations r <=? 50) = true.
Proof.
  assert (Hlt : (Z.of_nat 50 < 2 ^ 53)%Z) by (vm_compute; reflexivity).
  destruct (@C4_iterations_within_an_integer_cap imports onLine line fromOrigin
              _ _ 50%nat eq_refl Hlt eq_refl) as [Hret Hle].
  destruct (Hret 50%nat (Nat.le_refl 50)) as [r [console Hr]].
  exists r, console. split; [exact Hr|].
  exact (Hle 50%nat r console Hr).
Defined.

(** C4, as stated, fails: with a cap of [-1] the call returns zero
    iterations, which exceeds the cap; with a cap of [2.5] it returns
    three. *)
Lemma C4_counterexample :
  (exists r,
     fit 0 onLine line negativeCap = Some (Return r, [])
     /\ iterations r = 0
     /\ (iterations r <=? defaulted (Options.maxIterations negativeCap) 100)
        = false)
  /\ (exists r,
        fit 3 onLine line fractionalCap = Some (Return r, [])
        /\ iterations r = 3
        /\ (iterations r <=? defaulted (Options.maxIterations fractionalCap) 100)
           = false).
Proof.
  split; eexists; (split; [vm_compute; reflexivity|]);
    split; vm_compute; reflexivity.
Qed.

Lemma C3_witness :
  exists r console,
    fit 2 onLine line bounded = Some (Return r, console)
    /\ (0 <=? JS.get (parameterValues r) 0) = true
    /\ (JS.get (parameterValues r) 0 <=? 1.5) = true.
Proof.
  assert (Hr : exists r console,
             fit 2 onLine line bounded = Some (Return r, console))
    by (eexists; eexists; vm_compute; reflexivity).
  destruct Hr as [r [console Hr]]. exists r, console.
  split; [exact Hr|].
  destruct (@C3_clamped_after_a_pass imports 2%nat onLine line bounded
              _ _ r console eq_refl Hr) as [[Hp Hi]|H].
  - exfalso. vm_compute in Hr. injection Hr as <- _.
    vm_compute in Hi. discriminate Hi.
  - apply (H 0%nat).
    + vm_compute. lia.
    + vm_compute. reflexivity.
    + vm_compute in Hr. injection Hr as <- _. vm_compute. reflexivity.
Defined.

(** C3, as stated, fails: started on the exact parameters [[2, 1]] of the
    line, with the bounds [[0, 0]] and [[1, 1]], the call converges at once
    and returns [[2, 1]], above the upper bounds.  After a pass, bounds
    given upside down return the upper one, below the lower one; and a
    parameter stepped to [NaN] stays [NaN], which no bound compares to. *)
Lemma C3_counterexample :
  (fit 0 onLine line fromExact = Some (Return (result [2; 1] 0 0), [])
   /\ (JS.get [2; 1] 0 <=? JS.get [1; 1] 0) = false)
  /\ (exists r,
        fit 1 onLine line upsideDown = Some (Return r, [])
        /\ parameterValues r = [1; 1]
        /\ (JS.get [5; 5] 0 <=? JS.get (parameterValues r) 0) = false)
  /\ (exists r console,
        fit 2 onLine slope heldAtZero = Some (Return r, console)
        /\ isNaN (JS.get (parameterValues r) 0) = true
        /\ (JS.get [0] 0 <=? JS.get (parameterValues r) 0) = false).
Proof.
  split; [split; vm_compute; reflexivity|]. split.
  - eexists. split; [vm_compute; reflexivity|].
    split; vm_compute; reflexivity.
  - eexists. eexists. split; [vm_compute; reflexivity|].
    split; vm_compute; reflexivity.
Qed.

Lemma C8_witness :
  exists r console,
    fit 3 onLine line fromOrigin = Some (Return r, console)
    /\ exists n, iterations r = count n /\ List.length console = n.
Proof.
  assert (Hr : exists r console,
             fit 3 onLine line fromOrigin = Some (Return r, console))
    by (eexists; eexists; vm_compute; reflexivity).
  destruct Hr as [r [console Hr]]. exists r, console.
  split; [exact Hr|].
  destruct (proj2 (@C8_console_is_the_only_side_channel imports)
              3%nat onLine line fromOrigin _ _ r console eq_refl Hr)
    as [n [Hn Hc]].
  exists n. split; [exact Hn|].
  rewrite Hc. simpl. rewrite length_map, length_seq. reflexivity.
Defined.

(** C8, as stated, fails: given an observer as [onIteration], a call that
    completes three iterations leaves no trace of a call of it. *)
Lemma C8_counterexample :
  Options.onIteration observed = Some observer
  /\ exists r,
       fit 3 onLine line observed = Some (Return r, [])
       /\ iterations r = 3.
Proof.
  split; [reflexivity|].
  eexists. split; vm_compute; reflexivity.
Qed.

Lemma C7_witness :
  JS.get
    (clampAll 2 (repeat MIN_SAFE_INTEGER 2) (repeat MAX_SAFE_INTEGER 2)
       [-12.5; 9007199254740991]) 1
  = 9007199254740991.
Proof.
  destruct (C7_default_bounds_are_the_safe_integers onLine line fromOrigin
              _ _ eq_refl eq_refl eq_refl) as [_ [_ H]].
  apply (H [-12.5; 9007199254740991] 1%nat).
  - vm_compute. lia.
  - vm_compute. reflexivity.
  - vm_compute. reflexivity.
Defined.

(** C7, as stated, fails: the default bounds are the safe integers, far
    inside the range of the doubles, and one pass on the steep line steps
    to a finite slope that the default clamp brings down to
    [Number.MAX_SAFE_INTEGER]. *)
Lemma C7_counterexample :
  (MAX_SAFE_INTEGER <? MAX_VALUE) = true
  /\ (exists v,
        step [1; 2] [1e17; 2e17] [1] 0.01 0.01 slope = [v]
        /\ is_finite v = true
        /\ (MAX_SAFE_INTEGER <? v) = true)
  /\ (exists r,
        fit 1 steep slope onePass = Some (Return r, [])
        /\ parameterValues r = [MAX_SAFE_INTEGER]).
Proof.
  split; [vm_compute; reflexivity|]. split.
  - eexists. split; [vm_compute; reflexivity|].
    split; vm_compute; reflexivity.
  - eexists. split; vm_compute; reflexivity.
Qed.

Lemma C10_witness :
  exists s',
    prepare onLine line
      (Options.with_bounds fromOrigin (Some [0; 0; 0]) (Some [1.5; 3; 9]))
    = inr (s', [0; 0])
    /\ lower s' = [0; 0; 0] /\ upper s' = [1.5; 3; 9] /\ parLen s' = 2%nat.
Proof.
  exact (proj1
           (@C10_bounds_are_measured_against_each_other imports
              onLine line fromOrigin _ _ [0; 0; 0] [1.5; 3; 9]
              eq_refl eq_refl)).
Defined.

Lemma C5_witness :
  exists message,
    fit 0 {| Data.x := JS.Array [1; 2]; Data.y := JS.Array [1; 2; 3] |}
      line fromOrigin
    = Some (Throw message, []).
Proof.
  exact (proj1 (proj2 (proj2 (@C5_throws_exactly_when_rejected imports)))
           0%nat line fromOrigin [1; 2] [1; 2; 3] eq_refl).
Defined.

(** C5, as stated, fails: start values given as the number [0] are present
    and not a sequence, so the call is to be rejected, but it returns (the
    default start values are used). *)
Lemma C5_counterexample :
  Options.initialValues startZero = JS.Number 0
  /\ rejects given onLine slope startZero = true
  /\ exists r,
       fit 1 onLine slope startZero = Some (Return r, [])
       /\ iterations r = 1.
Proof.
  split; [reflexivity|]. split; [vm_compute; reflexivity|].
  eexists. split; vm_compute; reflexivity.
Qed.



End ConcreteRuns.

(** ** How a run ends *)

Section Endings.

Context {imports : Imports}.

(** The setup of an accepted call: the data, the function and the switches
    it runs on. *)
Lemma prepare_setup data pf options s p0 :
  prepare data pf options = inr (s, p0) ->
  xs s = JS.elements (Data.x data)
  /\ ys s = JS.elements (Data.y data)
  /\ f s = call pf
  /\ align s = Options.alignToData options
  /\ dataMin s = Math_min (JS.elements (Data.y data))
  /\ dataMax s = Math_max (JS.elements (Data.y data)).
Proof.
  unfold prepare. intros H.
  repeat match type of H with
         | context [if ?c then _ else _] =>
             let E := fresh "E" in destruct c eqn:E; [discriminate|]
         end.
  injection H as <- _. simpl. repeat split.
Qed.

(** What a returning loop leaves: the lines of the [n] passes that went
    on, none with a [NaN] error, [n] on the counter, and either the state
    after these passes, the test of the loop having failed, or the state
    after one more pass, whose error is [NaN]. *)
Lemma loop_trace s p0 e0 fuel : forall k r console,
  (forall j, (1 <= j <= k)%nat -> isNaN (snd (after s j p0 e0)) = false) ->
  loop s fuel (fst (after s k p0 e0)) (snd (after s k p0 e0))
    (snd (after s k p0 e0) <=? tolerance s) (count k) (lines s k p0 e0)
  = Some (r, console) ->
  exists n,
    iterations r = count n
    /\ console = lines s n p0 e0
    /\ (forall j, (1 <= j <= n)%nat -> isNaN (snd (after s j p0 e0)) = false)
    /\ (((parameterValues r, parameterError r) = after s n p0 e0
         /\ (count n <? maxIter s)
            && negb (snd (after s n p0 e0) <=? tolerance s) = false)
        \/ ((parameterValues r, parameterError r) = after s (S n) p0 e0
            /\ isNaN (parameterError r) = true
            /\ (count n <? maxIter s) = true)).
Proof.
  induction fuel as [|fuel IH]; intros k r console Hnum;
    rewrite loop_unfold;
    destruct ((count k <? maxIter s)
              && negb (snd (after s k p0 e0) <=? tolerance s)) eqn:Hc;
    try discriminate;
    try (intros H; injection H as <- <-; exists k;
         repeat split; try assumption; left; split;
         [symmetry; apply surjective_pairing | exact Hc]).
  destruct (pass s (fst (after s k p0 e0))) as [p' e'] eqn:Hpass.
  assert (Hafter : after s (S k) p0 e0 = (p', e')) by exact Hpass.
  destruct (isNaN e') eqn:Hnan.
  - intros H; injection H as <- <-. exists k.
    repeat split; try assumption. right. simpl.
    repeat split; [symmetry; exact Hafter | exact Hnan |].
    apply andb_prop in Hc. apply Hc.
  - intros H. apply (IH (S k)).
    + intros j Hj. destruct (Nat.eq_dec j (S k)) as [->|Hne].
      * rewrite Hafter. exact Hnan.
      * apply Hnum. lia.
    + rewrite lines_S, Hafter. exact H.
Qed.

(** The same for a call. *)
Lemma run_trace fuel data pf options s p0 r console :
  prepare data pf options = inr (s, p0) ->
  levenbergMarquardt fuel data pf options = Some (Return r, console) ->
  exists n,
    iterations r = count n
    /\ console = lines s n p0 (errorCalculation (xs s) (ys s) p0 (f s))
    /\ (forall j, (1 <= j <= n)%nat ->
          isNaN (snd (after s j p0 (errorCalculation (xs s) (ys s) p0 (f s))))
          = false)
    /\ (((parameterValues r, parameterError r)
         = after s n p0 (errorCalculation (xs s) (ys s) p0 (f s))
         /\ (count n <? maxIter s)
            && negb (snd (after s n p0
                            (errorCalculation (xs s) (ys s) p0 (f s)))
                     <=? tolerance s) = false)
        \/ ((parameterValues r, parameterError r)
            = after s (S n) p0 (errorCalculation (xs s) (ys s) p0 (f s))
            /\ isNaN (parameterError r) = true
            /\ (count n <? maxIter s) = true)).
Proof.
  intros Hp. rewrite (accepted_run _ _ _ _ _ _ Hp).
  destruct (loop s fuel p0 _ _ 0 []) as [[r' console']|] eqn:H;
    [|discriminate].
  intros E. injection E as <- <-.
  apply (loop_trace s p0 _ fuel 0%nat r' console'); [|exact H].
  intros j Hj. lia.
Qed.

(** The options [step] runs on. *)
Lemma prepare_step data pf options s p0 :
  prepare data pf options = inr (s, p0) ->
  damp s = defaulted (Options.damping options) 0
  /\ gradDiff s = defaulted (Options.gradientDifference options) 10e-2.
Proof.
  unfold prepare. intros H.
  repeat match type of H with
         | context [if ?c then _ else _] =>
             let E := fresh "E" in destruct c eqn:E; [discriminate|]
         end.
  injection H as <- _. simpl. split; reflexivity.
Qed.

(** X1. When [maxIterations] (given, or 100 by default) is a non-negative
    integer [n] below 2^53 and none of the first [n] passes ends the run
    (the error before each is above the tolerance and the error it computes
    is a number), the call runs exactly [n] passes and returns the
    parameters and the error of the last one, with [n] iterations. *)
Theorem X1_cap_reached :
  forall data pf options s p0 n,
    prepare data pf options = inr (s, p0) ->
    (Z.of_nat n < 2 ^ 53)%Z ->
    defaulted (Options.maxIterations options) 100 = Number_of_nat n ->
    let e0 := errorCalculation (xs s) (ys s) p0 (f s) in
    (forall j, (j < n)%nat ->
       (snd (after s j p0 e0) <=? tolerance s) = false
       /\ isNaN (snd (after s (S j) p0 e0)) = false) ->
    forall fuel,
      levenbergMarquardt (n + fuel) data pf options
      = Some
          (Return
             (result (fst (after s n p0 e0)) (snd (after s n p0 e0))
                (Number_of_nat n)),
           lines s n p0 e0).
Proof.
  intros data pf options s p0 n Hp Hlt Hcap e0 Hgo fuel.
  destruct (prepare_accepted _ _ _ _ _ Hp) as [Hmax _].
  rewrite <- Hmax in Hcap.
  pose proof (Number_of_nat_counts_to n Hlt) as [Hn Hk].
  rewrite <- Hcap in Hn, Hk.
  assert (Hrun : running s n p0 e0).
  { intros j Hj. split; [apply Hk; exact Hj | apply Hgo; exact Hj]. }
  rewrite (accepted_run _ _ _ _ _ _ Hp), (run_prefix _ _ _ _ _ Hrun).
  rewrite loop_exit by (rewrite Hn, ltb_irrefl; reflexivity).
  rewrite Hn, Hcap. reflexivity.
Qed.

(** X2. A call that returns has ended in one of three ways: its error is
    [NaN], or its error is within the tolerance, or its iterations are not
    below [maxIterations]. *)
Theorem X2_three_endings :
  forall fuel data pf options s p0 r console,
    prepare data pf options = inr (s, p0) ->
    levenbergMarquardt fuel data pf options = Some (Return r, console) ->
    isNaN (parameterError r) = true
    \/ (parameterError r <=? defaulted (Options.errorTolerance options) 10e-3)
       = true
    \/ (iterations r <? defaulted (Options.maxIterations options) 100)
       = false.
Proof.
  intros fuel data pf options s p0 r console Hp Hr.
  destruct (prepare_accepted _ _ _ _ _ Hp) as [Hmax [Htol _]].
  rewrite <- Hmax, <- Htol.
  destruct (run_trace _ _ _ _ _ _ _ _ Hp Hr)
    as [n [Hi [_ [_ [[Hst Hc]|[_ [Hnan _]]]]]]].
  - apply andb_false_iff in Hc. rewrite <- Hst in Hc. simpl in Hc.
    rewrite Hi. destruct Hc as [Hc|Hc].
    + right. right. exact Hc.
    + right. left. apply negb_false_iff. exact Hc.
  - left. exact Hnan.
Qed.

(** X3. The error a call returns is the error of the parameters it
    returns.  When no pass was run, they are the start values and their
    error for the function to fit, with zero iterations.  Otherwise let [q]
    be the parameters the last pass started from, the state after the [n]
    passes before it, and let the function of that pass be the function to
    fit, or with [alignToData] the function to fit aligned on its values at
    [q] over the [x] of the data: the parameters returned are the clamp of
    what [step] gives from [q] with that function, the error returned is
    [errorCalculation] on the data, on the parameters returned and on that
    same function, and the iterations are [n + 1], or [n] when this error
    is [NaN].  Without [alignToData] it is, in each case, the error of the
    returned parameters for the function to fit. *)
Theorem X3_error_of_the_returned_parameters :
  forall fuel data pf options s p0 r console,
    prepare data pf options = inr (s, p0) ->
    levenbergMarquardt fuel data pf options = Some (Return r, console) ->
    let x := JS.elements (Data.x data) in
    let y := JS.elements (Data.y data) in
    let e0 := errorCalculation x y p0 (call pf) in
    let fitted (q : list float) : Curve :=
      if Options.alignToData options
      then alignedFunction (call pf) (Math_min y) (Math_max y)
             (map (call pf q) x)
      else call pf in
    ((iterations r = 0 /\ parameterValues r = p0 /\ parameterError r = e0)
     \/ (exists n,
           let q := fst (after s n p0 e0) in
           (iterations r = count (S n)
            \/ (iterations r = count n /\ isNaN (parameterError r) = true))
           /\ parameterValues r
              = clampAll (List.length p0)
                  (defaulted (Options.minValues options)
                     (repeat MIN_SAFE_INTEGER (List.length p0)))
                  (defaulted (Options.maxValues options)
                     (repeat MAX_SAFE_INTEGER (List.length p0)))
                  (step x y q (defaulted (Options.damping options) 0)
                     (defaulted (Options.gradientDifference options) 10e-2)
                     (fitted q))
           /\ parameterError r
              = errorCalculation x y (parameterValues r) (fitted q)))
    /\ (Options.alignToData options = false ->
        parameterError r
        = errorCalculation x y (parameterValues r) (call pf)).
Proof.
  intros fuel data pf options s p0 r console Hp Hr x y e0 fitted.
  destruct (prepare_setup _ _ _ _ _ Hp) as [Hx [Hy [Hf [Hal [Hmin Hmax]]]]].
  destruct (prepare_accepted _ _ _ _ _ Hp)
    as [_ [_ [_ [Hlen [Hlower [Hupper _]]]]]].
  destruct (prepare_step _ _ _ _ _ Hp) as [Hdamp Hgrad].
  assert (He0 : errorCalculation (xs s) (ys s) p0 (f s) = e0)
    by (rewrite Hx, Hy, Hf; reflexivity).
  assert (Hfit : forall q, alignedFun s q = fitted q).
  { intros q. unfold alignedFun, fitted.
    rewrite Hal, Hf, Hmin, Hmax, Hx. reflexivity. }
  assert (Hpass : forall q,
            pass s q
            = (clampAll (List.length p0)
                 (defaulted (Options.minValues options)
                    (repeat MIN_SAFE_INTEGER (List.length p0)))
                 (defaulted (Options.maxValues options)
                    (repeat MAX_SAFE_INTEGER (List.length p0)))
                 (step x y q (defaulted (Options.damping options) 0)
                    (defaulted (Options.gradientDifference options) 10e-2)
                    (fitted q)),
               errorCalculation x y
                 (clampAll (List.length p0)
                    (defaulted (Options.minValues options)
                       (repeat MIN_SAFE_INTEGER (List.length p0)))
                    (defaulted (Options.maxValues options)
                       (repeat MAX_SAFE_INTEGER (List.length p0)))
                    (step x y q (defaulted (Options.damping options) 0)
                       (defaulted (Options.gradientDifference options) 10e-2)
                       (fitted q)))
                 (fitted q))).
  { intros q. unfold pass.
    rewrite Hfit, Hx, Hy, Hlen, Hlower, Hupper, Hdamp, Hgrad. reflexivity. }
  assert (H :
    (iterations r = 0 /\ parameterValues r = p0 /\ parameterError r = e0)
    \/ (exists n,
          let q := fst (after s n p0 e0) in
          (iterations r = count (S n)
           \/ (iterations r = count n /\ isNaN (parameterError r) = true))
          /\ parameterValues r
             = clampAll (List.length p0)
                 (defaulted (Options.minValues options)
                    (repeat MIN_SAFE_INTEGER (List.length p0)))
                 (defaulted (Options.maxValues options)
                    (repeat MAX_SAFE_INTEGER (List.length p0)))
                 (step x y q (defaulted (Options.damping options) 0)
                    (defaulted (Options.gradientDifference options) 10e-2)
                    (fitted q))
          /\ parameterError r
             = errorCalculation x y (parameterValues r) (fitted q))).
  { destruct (run_trace _ _ _ _ _ _ _ _ Hp Hr)
      as [n [Hi [_ [_ [[Hst _]|[Hst [Hnan _]]]]]]];
      rewrite He0 in Hst.
    - destruct n as [|n].
      + left. simpl in Hst. injection Hst as Hv He.
        repeat split; assumption.
      + right. exists n. simpl in Hst. rewrite Hpass in Hst.
        injection Hst as Hv He. cbv zeta.
        split; [left; exact Hi|]. split; [exact Hv|].
        rewrite Hv. exact He.
    - right. exists n. simpl in Hst. rewrite Hpass in Hst.
      injection Hst as Hv He. cbv zeta.
      split; [right; split; [exact Hi | exact Hnan]|]. split; [exact Hv|].
      rewrite Hv. exact He. }
  split; [exact H|].
  intros Hoff.
  assert (Hpf : forall q, fitted q = call pf)
    by (intros q; unfold fitted; rewrite Hoff; reflexivity).
  destruct H as [[_ [Hv He]]|[n [_ [_ He]]]].
  - rewrite Hv. exact He.
  - rewrite Hpf in He. exact He.
Qed.

(** X4. Every line a call writes reports an error that is a number; and
    when a call that wrote lines returns an error that is a number, its last
    line reports the error and the parameters it returns. *)
Theorem X4_logged_lines :
  forall fuel data pf options s p0 r console,
    prepare data pf options = inr (s, p0) ->
    levenbergMarquardt fuel data pf options = Some (Return r, console) ->
    Forall (fun l => exists e p, l = ConsoleLog e p /\ isNaN e = false) console
    /\ (console <> [] ->
        isNaN (parameterError r) = false ->
        exists earlier,
          console
          = earlier ++ [ConsoleLog (parameterError r) (parameterValues r)]).
Proof.
  intros fuel data pf options s p0 r console Hp Hr.
  destruct (run_trace _ _ _ _ _ _ _ _ Hp Hr)
    as [n [_ [Hc [Hnum Hend]]]].
  split.
  - rewrite Hc, lines_logging. destruct (logging s); [|constructor].
    apply Forall_forall. intros l Hl.
    apply in_map_iff in Hl. destruct Hl as [j [<- Hj]].
    apply in_seq in Hj. eexists. eexists. split; [reflexivity|].
    apply Hnum. lia.
  - intros Hne Hnan.
    destruct Hend as [[Hst _]|[_ [Hbad _]]];
      [|rewrite Hbad in Hnan; discriminate].
    destruct n as [|n]; [exfalso; apply Hne; rewrite Hc; reflexivity|].
    rewrite Hc, lines_S. unfold logged.
    destruct (logging s) eqn:Hlog.
    + rewrite <- Hst. eexists. reflexivity.
    + exfalso. apply Hne. rewrite Hc, lines_logging, Hlog. reflexivity.
Qed.

(** X5. When [0 < maxIterations] does not hold (a cap of zero, a negative
    cap, a cap that is [NaN]), the call runs no pass: it returns the start
    values, their error and zero iterations, and writes nothing. *)
Theorem X5_no_pass_without_a_positive_cap :
  forall data pf options s p0,
    prepare data pf options = inr (s, p0) ->
    (0 <? defaulted (Options.maxIterations options) 100) = false ->
    forall fuel,
      levenbergMarquardt fuel data pf options
      = Some
          (Return (result p0 (errorCalculation (xs s) (ys s) p0 (f s)) 0),
           []).
Proof.
  intros data pf options s p0 Hp Hcap fuel.
  destruct (prepare_accepted _ _ _ _ _ Hp) as [Hmax _].
  rewrite <- Hmax in Hcap.
  rewrite (accepted_run _ _ _ _ _ _ Hp), loop_exit; [reflexivity|].
  rewrite Hcap. reflexivity.
Qed.

End Endings.

(** ** What the clamp does to missing and to bad entries *)

Section ClampEdges.

Context {imports : Imports}.

(** A clamp is [NaN] exactly when one of its three arguments is. *)
Lemma clamp_nan_iff (lo v hi : float) :
  isNaN (clamp lo v hi) = isNaN lo || isNaN v || isNaN hi.
Proof.
  destruct (isNaN (clamp lo v hi)) eqn:E.
  - unfold isNaN in *.
    destruct (is_nan lo) eqn:Hlo; [reflexivity|].
    destruct (is_nan v) eqn:Hv; [reflexivity|].
    destruct (is_nan hi) eqn:Hhi; [reflexivity|].
    exfalso.
    destruct (Math_max_pair lo v Hlo Hv) as [Emax [Hm _]].
    destruct (Math_min_pair (max_step lo v) hi Hm Hhi) as [Emin [Hr _]].
    unfold clamp in E. rewrite Emax, Emin, Hr in E. discriminate.
  - destruct (clamp_not_nan _ _ _ E) as [Hlo [Hv Hhi]].
    unfold isNaN. rewrite Hlo, Hv, Hhi. reflexivity.
Qed.

Lemma set_length (a : list float) (k : nat) (v : float) :
  List.length (JS.set a k v) = Nat.max (List.length a) (S k).
Proof.
  revert a. induction k as [|k IH]; intros a.
  - destruct a as [|h t]; simpl; [reflexivity|]. destruct (List.length t); reflexivity.
  - destruct a as [|h t]; simpl; rewrite IH; reflexivity.
Qed.

Lemma clamp_fold_length (lo hi : list float) (len start : nat)
    (p : list float) :
  List.length
    (fold_left
       (fun parameters k =>
          JS.set parameters k
            (clamp (JS.get lo k) (JS.get parameters k) (JS.get hi k)))
       (seq start len) p)
  = match len with
    | O => List.length p
    | S _ => Nat.max (List.length p) (start + len)
    end.
Proof.
  revert start p. induction len as [|len IH]; intros start p; simpl.
  - reflexivity.
  - rewrite IH, set_length. destruct len; simpl; lia.
Qed.

(** The inner loop leaves as many entries as the longer of the start
    values and the stepped parameters. *)
Lemma clampAll_length (n : nat) (lo hi p : list float) :
  List.length (clampAll n lo hi p) = Nat.max n (List.length p).
Proof.
  unfold clampAll. rewrite clamp_fold_length.
  destruct n; [reflexivity | lia].
Qed.

(** X6. After the inner loop, an entry below the number of start values
    is [NaN] exactly when its lower bound, the entry [step] returned or its
    upper bound is [NaN] or missing. *)
Theorem X6_clamped_entry_is_nan :
  forall (n : nat) (lo hi q : list float) (k : nat),
    (k < n)%nat ->
    isNaN (JS.get (clampAll n lo hi q) k)
    = isNaN (JS.get lo k) || isNaN (JS.get q k) || isNaN (JS.get hi k).
Proof.
  intros n lo hi q k Hk. rewrite clampAll_get.
  replace (k <? n)%nat with true by (symmetry; apply Nat.ltb_lt; exact Hk).
  apply clamp_nan_iff.
Qed.

Lemma get_missing (a : list float) (k : nat) :
  (List.length a <= k)%nat -> JS.get a k = nan.
Proof. intros H. unfold JS.get. apply nth_overflow. exact H. Qed.

(** X7. Bounds shorter than the start values are accepted, and the
    parameters they do not reach come back as [NaN]: the parameters a call
    returns are the start values as given, with zero iterations, or have
    [NaN] at every index from the length of [minValues] up to the number of
    start values. *)
Theorem X7_short_bounds_give_nan :
  forall fuel data pf options s p0 lo r console,
    Options.minValues options = Some lo ->
    prepare data pf options = inr (s, p0) ->
    levenbergMarquardt fuel data pf options = Some (Return r, console) ->
    (parameterValues r = p0 /\ iterations r = 0)
    \/ (forall k,
          (List.length lo <= k < List.length p0)%nat ->
          isNaN (JS.get (parameterValues r) k) = true).
Proof.
  intros fuel data pf options s p0 lo r console Hlo Hp.
  rewrite (accepted_run _ _ _ _ _ _ Hp).
  destruct (loop s fuel p0 _ _ 0 []) as [[r' console']|] eqn:H;
    [|discriminate].
  intros E. injection E as <- <-.
  apply loop_parameters in H. destruct H as [H|[q Hq]]; [left; exact H|].
  right. intros k Hk.
  destruct (prepare_accepted _ _ _ _ _ Hp)
    as [_ [_ [_ [Hlen [Hlower _]]]]].
  rewrite Hlo in Hlower. simpl in Hlower.
  rewrite Hq, clampAll_get, Hlen, Hlower.
  replace (k <? List.length p0)%nat with true
    by (symmetry; apply Nat.ltb_lt; lia).
  rewrite clamp_nan_iff, (get_missing lo k) by lia. reflexivity.
Qed.

(** X10. A call never returns fewer parameters than it started with: when
    [step] returns a shorter array, the inner loop fills it up to the number
    of start values. *)
Theorem X10_no_fewer_parameters :
  forall fuel data pf options s p0 r console,
    prepare data pf options = inr (s, p0) ->
    levenbergMarquardt fuel data pf options = Some (Return r, console) ->
    (List.length p0 <= List.length (parameterValues r))%nat.
Proof.
  intros fuel data pf options s p0 r console Hp.
  rewrite (accepted_run _ _ _ _ _ _ Hp).
  destruct (loop s fuel p0 _ _ 0 []) as [[r' console']|] eqn:H;
    [|discriminate].
  intros E. injection E as <- <-.
  apply loop_parameters in H. destruct H as [[H _]|[q Hq]].
  - rewrite H. apply Nat.le_refl.
  - destruct (prepare_accepted _ _ _ _ _ Hp) as [_ [_ [_ [Hlen _]]]].
    rewrite Hq, clampAll_length, Hlen. apply Nat.le_max_l.
Qed.

(** X11. With the default bounds, a parameter that went through a pass is
    [NaN] or lies between the two safe integers, whatever [step] returned
    for it (an infinite step included): the parameters a call returns are
    the start values as given, with zero iterations, or have below the
    number of start values only such entries. *)
Theorem X11_default_bounds_hold_after_a_pass :
  forall fuel data pf options s p0 r console,
    Options.minValues options = None ->
    Options.maxValues options = None ->
    prepare data pf options = inr (s, p0) ->
    levenbergMarquardt fuel data pf options = Some (Return r, console) ->
    (parameterValues r = p0 /\ iterations r = 0)
    \/ (forall k,
          (k < List.length p0)%nat ->
          isNaN (JS.get (parameterValues r) k) = true
          \/ ((MIN_SAFE_INTEGER <=? JS.get (parameterValues r) k) = true
              /\ (JS.get (parameterValues r) k <=? MAX_SAFE_INTEGER) = true)).
Proof.
  intros fuel data pf options s p0 r console Hlo Hhi Hp.
  rewrite (accepted_run _ _ _ _ _ _ Hp).
  destruct (loop s fuel p0 _ _ 0 []) as [[r' console']|] eqn:H;
    [|discriminate].
  intros E. injection E as <- <-.
  apply loop_parameters in H. destruct H as [H|[q Hq]]; [left; exact H|].
  right. intros k Hk.
  destruct (prepare_accepted _ _ _ _ _ Hp)
    as [_ [_ [_ [Hlen [Hlower [Hupper _]]]]]].
  rewrite Hlo in Hlower. rewrite Hhi in Hupper. simpl in Hlower, Hupper.
  rewrite Hq, clampAll_get, Hlen, Hlower, Hupper.
  replace (k <? List.length p0)%nat with true
    by (symmetry; apply Nat.ltb_lt; exact Hk).
  rewrite !get_repeat by exact Hk.
  destruct (isNaN (clamp MIN_SAFE_INTEGER (JS.get q k) MAX_SAFE_INTEGER))
    eqn:Hnan; [left; reflexivity | right].
  apply clamp_between; [reflexivity|].
  exact (proj1 (proj2 (clamp_not_nan _ _ _ Hnan))).
Qed.

End ClampEdges.

(** ** The checks, one by one *)

Section CheckOrder.

(** X8. When only one of [minValues] and [maxValues] is given, the other
    defaults to the number of start values: a call accepted without bounds
    is accepted with that one bound exactly when it has as many entries as
    there are start values, and throws "minValues and maxValues must be the
    same size" otherwise. *)
Theorem X8_a_single_bound_must_fit_the_start_values :
  forall data pf options s p0 bound,
    prepare data pf (Options.with_bounds options None None) = inr (s, p0) ->
    (if (List.length bound =? List.length p0)%nat
     then exists s',
            prepare data pf (Options.with_bounds options (Some bound) None)
            = inr (s', p0)
            /\ lower s' = bound
            /\ upper s' = repeat MAX_SAFE_INTEGER (List.length p0)
     else prepare data pf (Options.with_bounds options (Some bound) None)
          = inl "minValues and maxValues must be the same size"%string)
    /\ (if (List.length bound =? List.length p0)%nat
        then exists s',
               prepare data pf (Options.with_bounds options None (Some bound))
               = inr (s', p0)
               /\ lower s' = repeat MIN_SAFE_INTEGER (List.length p0)
               /\ upper s' = bound
        else prepare data pf (Options.with_bounds options None (Some bound))
             = inl "minValues and maxValues must be the same size"%string).
Proof.
  intros data pf options s p0 bound.
  unfold prepare. simpl.
  repeat match goal with
         | |- context [if ?c then inl _ else _] =>
             destruct c eqn:?; [discriminate|]
         end.
  destruct (JS.or (Options.initialValues options)
              (JS.Array (repeat 1 (length pf))))
    as [| | | | | |l]; simpl in *; try discriminate.
  intros E. injection E as _ <-.
  rewrite !repeat_length.
  rewrite (Nat.eqb_sym (List.length l) (List.length bound)).
  destruct (List.length bound =? List.length l)%nat; simpl.
  - split; eexists; (split; [reflexivity|]); simpl; split; reflexivity.
  - split; reflexivity.
Qed.

(** X12. The checks run in a fixed order and the first that fails names
    the error: a damping that is missing or not positive, whatever the data;
    then an [x] or a [y] that is falsy; then an [x] or a [y] that is not an
    array or has fewer than two elements (so an empty array gets this
    error, not the one before, and two unequal arrays of which one is too
    short get it too); then two arrays of different lengths. *)
Theorem X12_the_first_failing_check_names_the_error :
  forall data pf options,
    let d := defaulted (Options.damping options) 0 in
    ((d <=? 0) = true ->
     prepare data pf options
     = inl "The damping option must be a positive number"%string)
    /\ ((d <=? 0) = false ->
        JS.truthy (Data.x data) && JS.truthy (Data.y data) = false ->
        prepare data pf options
        = inl "The data parameter must have x and y elements"%string)
    /\ ((d <=? 0) = false ->
        JS.truthy (Data.x data) && JS.truthy (Data.y data) = true ->
        JS.isArray (Data.x data) && JS.isArray (Data.y data)
        && (2 <=? List.length (JS.elements (Data.x data)))%nat
        && (2 <=? List.length (JS.elements (Data.y data)))%nat = false ->
        prepare data pf options
        = inl "The data parameter elements must be an array with more than 2 points"%string)
    /\ ((d <=? 0) = false ->
        forall xs ys,
          Data.x data = JS.Array xs -> Data.y data = JS.Array ys ->
          (2 <= List.length xs)%nat -> (2 <= List.length ys)%nat ->
          List.length xs <> List.length ys ->
          prepare data pf options
          = inl "The data parameter elements must have the same size"%string).
Proof.
  intros data pf options d. unfold prepare. fold d.
  split; [|split; [|split]].
  - intros Hd. rewrite Hd. reflexivity.
  - intros Hd Ht. rewrite Hd.
    apply andb_false_iff in Ht.
    destruct Ht as [Ht|Ht]; rewrite Ht; simpl; rewrite ?orb_true_r;
      reflexivity.
  - intros Hd Ht Ha. rewrite Hd.
    apply andb_prop in Ht. destruct Ht as [Hx Hy]. rewrite Hx, Hy. simpl.
    rewrite !Nat.ltb_antisym.
    destruct (2 <=? List.length (JS.elements (Data.x data)))%nat,
             (2 <=? List.length (JS.elements (Data.y data)))%nat,
             (JS.isArray (Data.x data)), (JS.isArray (Data.y data));
      try discriminate; reflexivity.
  - intros Hd xs ys Hx Hy Hlx Hly Hne. rewrite Hd, Hx, Hy. simpl.
    replace (List.length xs <? 2)%nat with false
      by (symmetry; apply Nat.ltb_ge; exact Hlx).
    replace (List.length ys <? 2)%nat with false
      by (symmetry; apply Nat.ltb_ge; exact Hly).
    replace (List.length xs =? List.length ys)%nat with false
      by (symmetry; apply Nat.eqb_neq; exact Hne).
    reflexivity.
Qed.

End CheckOrder.

(** ** Alignment on a degenerate range *)

Section DegenerateAlignment.

Lemma SFmul_not_finite (a b : spec_float) :
  not_finite a -> not_finite (SFmul 53 1024 a b).
Proof.
  destruct a as [sa|sa| |sa ma ea], b as [sb|sb| |sb mb eb]; simpl;
    intros H; try exact I; try contradiction.
Qed.

Lemma SFadd_not_finite (a b : spec_float) :
  not_finite a -> not_finite (SFadd 53 1024 a b).
Proof.
  destruct a as [sa|sa| |sa ma ea], b as [sb|sb| |sb mb eb]; simpl;
    intros H; try exact I; try contradiction.
  destruct sa, sb; exact I.
Qed.

Lemma not_finite_is_finite (v : float) :
  not_finite (Prim2SF v) -> is_finite v = false.
Proof.
  intros H. unfold is_finite, is_infinity.
  destruct (is_nan v) eqn:Hn; [reflexivity|]. simpl.
  rewrite FloatAxioms.eqb_spec, abs_spec.
  destruct (Prim2SF v) as [s|s| |s m e] eqn:E; try contradiction.
  - reflexivity.
  - apply is_nan_false_spec in Hn. congruence.
Qed.

(** The least and the greatest of one number repeated are that number. *)
Lemma Math_min_repeat (c : float) (n : nat) :
  is_nan c = false -> Math_min (repeat c (S n)) = c.
Proof.
  intros Hc. unfold Math_min.
  assert (He : existsb isNaN (repeat c (S n)) = false).
  { induction (S n) as [|m IH]; simpl; [reflexivity|].
    unfold isNaN at 1. rewrite Hc. exact IH. }
  rewrite He. clear He. simpl. rewrite min_step_infinity by exact Hc.
  induction n as [|n IH]; simpl; [reflexivity|].
  assert (Hs : min_step c c = c).
  { unfold min_step. destruct (is_neg_zero c && is_pos_zero c);
      [reflexivity|]. destruct (c <? c); reflexivity. }
  rewrite Hs. exact IH.
Qed.

Lemma Math_max_repeat (c : float) (n : nat) :
  is_nan c = false -> Math_max (repeat c (S n)) = c.
Proof.
  intros Hc. unfold Math_max.
  assert (He : existsb isNaN (repeat c (S n)) = false).
  { induction (S n) as [|m IH]; simpl; [reflexivity|].
    unfold isNaN at 1. rewrite Hc. exact IH. }
  rewrite He. clear He. simpl. rewrite max_step_neg_infinity by exact Hc.
  induction n as [|n IH]; simpl; [reflexivity|].
  assert (Hs : max_step c c = c).
  { unfold max_step. destruct (is_pos_zero c && is_neg_zero c);
      [reflexivity|]. destruct (c <? c); reflexivity. }
  rewrite Hs. exact IH.
Qed.

(** X9. When the least and the greatest of the values to align are equal
    (the function to fit is constant over the samples, say), the aligned
    function returns no finite number: for every parameter vector and every
    [x] its value is [NaN] or an infinity.  So it is when all the values to
    align are one number. *)
Theorem X9_degenerate_alignment_is_never_finite :
  (forall (f : Curve) (dataMin dataMax : float) (toAlign : list float)
     (parameters : list float) (x : float),
     (Math_min toAlign =? Math_max toAlign) = true ->
     is_finite (alignedFunction f dataMin dataMax toAlign parameters x)
     = false)
  /\ (forall (f : Curve) (dataMin dataMax c : float) (n : nat)
        (parameters : list float) (x : float),
        is_nan c = false ->
        is_finite
          (alignedFunction f dataMin dataMax (repeat c (S n)) parameters x)
        = false).
Proof.
  assert (H : forall (f : Curve) (dataMin dataMax : float)
                (toAlign : list float) (parameters : list float) (x : float),
             (Math_min toAlign =? Math_max toAlign) = true ->
             is_finite (alignedFunction f dataMin dataMax toAlign parameters x)
             = false).
  { intros f dataMin dataMax toAlign parameters x Heq.
    apply not_finite_is_finite.
    unfold alignedFunction, getLinearParams. simpl.
    rewrite FloatAxioms.add_spec, FloatAxioms.mul_spec, FloatAxioms.div_spec.
    apply SFadd_not_finite, SFmul_not_finite, SFdiv_by_zero_or_nan.
    rewrite (FloatAxioms.sub_spec (Math_min toAlign)).
    apply SFsub_equal.
    rewrite FloatAxioms.eqb_spec in Heq. unfold SFeqb in Heq.
    destruct (SFcompare _ _) as [[]|]; try discriminate. reflexivity. }
  split; [exact H|].
  intros f dataMin dataMax c n parameters x Hc. apply H.
  rewrite Math_min_repeat, Math_max_repeat by exact Hc.
  rewrite FloatAxioms.eqb_spec. unfold SFeqb.
  rewrite SFcompare_refl; [reflexivity|].
  apply is_nan_false_spec. exact Hc.
Qed.

(** X13. The values of [y] are not checked: a [NaN] among them makes the
    least and the greatest of [y] [NaN], and with [alignToData] the function
    handed to [step] and to [errorCalculation] then returns [NaN] for every
    parameter vector and every [x]. *)
Theorem X13_nan_in_y_poisons_the_alignment :
  forall data pf options s p0,
    prepare data pf options = inr (s, p0) ->
    Options.alignToData options = true ->
    existsb isNaN (JS.elements (Data.y data)) = true ->
    forall q parameters x,
      isNaN (alignedFun s q parameters x) = true.
Proof.
  intros data pf options s p0 Hp Hal Hy q parameters x.
  destruct (prepare_setup _ _ _ _ _ Hp) as [_ [_ [_ [Ha [Hmin Hmax]]]]].
  unfold alignedFun. rewrite Ha, Hal, Hmin, Hmax.
  unfold Math_min at 1, Math_max at 1. rewrite Hy.
  unfold alignedFunction, getLinearParams. simpl.
  unfold isNaN. apply is_nan_spec.
  rewrite FloatAxioms.add_spec, FloatAxioms.mul_spec, FloatAxioms.div_spec.
  change (Prim2SF nan) with S754_nan. reflexivity.
Qed.

End DegenerateAlignment.

(** ** Concrete runs of the further properties *)

Section MoreConcreteRuns.

Import Helpers Examples MoreExamples.

Lemma X1_witness :
  exists r console,
    fit 2 onLine line bounded = Some (Return r, console)
    /\ iterations r = 2.
Proof.
  assert (Hlt : (Z.of_nat 2 < 2 ^ 53)%Z) by (vm_compute; reflexivity).
  eexists. eexists. split.
  - refine (@X1_cap_reached imports onLine line bounded _ _ 2%nat
              eq_refl Hlt eq_refl _ 0%nat).
    intros j Hj. destruct j as [|[|j]]; [vm_compute; split; reflexivity ..| lia].
  - reflexivity.
Defined.

Lemma X2_witness :
  exists r console,
    fit 3 onLine line fromOrigin = Some (Return r, console)
    /\ (isNaN (parameterError r) = true
        \/ (parameterError r <=? 1e-6) = true
        \/ (iterations r <? 50) = false).
Proof.
  assert (Hr : exists r console,
             fit 3 onLine line fromOrigin = Some (Return r, console))
    by (eexists; eexists; vm_compute; reflexivity).
  destruct Hr as [r [console Hr]]. exists r, console.
  split; [exact Hr|].
  exact (@X2_three_endings imports 3%nat onLine line fromOrigin _ _ r console
           eq_refl Hr).
Defined.

(** The line fitted from [[1, 0]] with [alignToData]: one pass, that leaves
    the parameters as they are; the error returned is the error of the
    aligned function, which is zero, where the function to fit itself is off
    the data. *)
Lemma X3_witness :
  exists s r console,
    prepare onLine line alignedFromIdentity = inr (s, [1; 0])
    /\ fit 3 onLine line alignedFromIdentity = Some (Return r, console)
    /\ ((iterations r = 0 /\ parameterValues r = [1; 0]
         /\ parameterError r
            = errorCalculation [0; 1; 2; 3] [1; 3; 5; 7] [1; 0] line)
        \/ (exists n,
              (iterations r = count (S n)
               \/ (iterations r = count n
                   /\ isNaN (parameterError r) = true))
              /\ parameterValues r
                 = clampAll 2 [MIN_SAFE_INTEGER; MIN_SAFE_INTEGER]
                     [MAX_SAFE_INTEGER; MAX_SAFE_INTEGER]
                     (step [0; 1; 2; 3] [1; 3; 5; 7]
                        (fst (@after imports s n [1; 0]
                                (errorCalculation [0; 1; 2; 3] [1; 3; 5; 7]
                                   [1; 0] line)))
                        0.01 0.01
                        (alignedFunction line 1 7
                           (map (call line
                                   (fst (@after imports s n [1; 0]
                                           (errorCalculation [0; 1; 2; 3]
                                              [1; 3; 5; 7] [1; 0] line))))
                              [0; 1; 2; 3])))
              /\ parameterError r
                 = errorCalculation [0; 1; 2; 3] [1; 3; 5; 7]
                     (parameterValues r)
                     (alignedFunction line 1 7
                        (map (call line
                                (fst (@after imports s n [1; 0]
                                        (errorCalculation [0; 1; 2; 3]
                                           [1; 3; 5; 7] [1; 0] line))))
                           [0; 1; 2; 3]))))
    /\ r = result [1; 0] 0 1.
Proof.
  assert (Hr : exists r console,
             fit 3 onLine line alignedFromIdentity
             = Some (Return r, console)
             /\ r = result [1; 0] 0 1)
    by (eexists; eexists; split; vm_compute; reflexivity).
  destruct Hr as [r [console [Hr Hv]]].
  eexists. exists r, console.
  split; [reflexivity|]. split; [exact Hr|]. split; [|exact Hv].
  exact (proj1 (@X3_error_of_the_returned_parameters imports 3%nat onLine
                  line alignedFromIdentity _ _ r console eq_refl Hr)).
Defined.

Lemma X4_witness :
  exists r console,
    fit 3 onLine line fromOrigin = Some (Return r, console)
    /\ exists earlier,
         console
         = earlier ++ [ConsoleLog (parameterError r) (parameterValues r)].
Proof.
  assert (Hr : exists r console,
             fit 3 onLine line fromOrigin = Some (Return r, console))
    by (eexists; eexists; vm_compute; reflexivity).
  destruct Hr as [r [console Hr]]. exists r, console.
  split; [exact Hr|].
  apply (proj2 (@X4_logged_lines imports 3%nat onLine line fromOrigin _ _
                  r console eq_refl Hr)).
  - vm_compute in Hr. injection Hr as _ <-. discriminate.
  - vm_compute in Hr. injection Hr as <- _. vm_compute. reflexivity.
Defined.

Lemma X5_witness :
  exists e0,
    fit 0 onLine line negativeCap = Some (Return (result [0; 0] e0 0), []).
Proof.
  eexists.
  exact (@X5_no_pass_without_a_positive_cap imports onLine line negativeCap
           _ _ eq_refl eq_refl 0%nat).
Defined.

Lemma X6_witness :
  isNaN (JS.get (clampAll 2 [0] [1; 1] [0.5; 0.5]) 1) = true.
Proof.
  assert (Hk : (1 < 2)%nat) by lia.
  exact (X6_clamped_entry_is_nan 2 [0] [1; 1] [0.5; 0.5] 1 Hk).
Defined.

Lemma X7_witness :
  exists r console,
    fit 1 onLine line shortBounds = Some (Return r, console)
    /\ isNaN (JS.get (parameterValues r) 1) = true.
Proof.
  assert (Hr : exists r console,
             fit 1 onLine line shortBounds = Some (Return r, console))
    by (eexists; eexists; vm_compute; reflexivity).
  destruct Hr as [r [console Hr]]. exists r, console.
  split; [exact Hr|].
  destruct (@X7_short_bounds_give_nan imports 1%nat onLine line shortBounds
              _ _ [0] r console eq_refl eq_refl Hr) as [[Hp _]|H].
  - exfalso. vm_compute in Hr. injection Hr as <- _.
    apply (f_equal (fun l => is_nan (JS.get l 1))) in Hp.
    vm_compute in Hp. discriminate Hp.
  - apply (H 1%nat). vm_compute. lia.
Defined.

Lemma X8_witness :
  prepare onLine line (Options.with_bounds fromOrigin (Some [0]) None)
  = inl "minValues and maxValues must be the same size"%string.
Proof.
  exact (proj1 (X8_a_single_bound_must_fit_the_start_values onLine line
                  fromOrigin _ _ [0] eq_refl)).
Defined.

Lemma X9_witness :
  is_finite (alignedFunction slope 1 7 [0; 0; 0; 0] [0] 2) = false.
Proof.
  exact (proj1 X9_degenerate_alignment_is_never_finite slope 1 7
           [0; 0; 0; 0] [0] 2 eq_refl).
Defined.

Lemma X10_witness :
  exists r console,
    fit 3 onLine line fromOrigin = Some (Return r, console)
    /\ (2 <= List.length (parameterValues r))%nat.
Proof.
  assert (Hr : exists r console,
             fit 3 onLine line fromOrigin = Some (Return r, console))
    by (eexists; eexists; vm_compute; reflexivity).
  destruct Hr as [r [console Hr]]. exists r, console.
  split; [exact Hr|].
  exact (@X10_no_fewer_parameters imports 3%nat onLine line fromOrigin _ _
           r console eq_refl Hr).
Defined.

Lemma X11_witness :
  exists r console,
    fit 1 steep slope onePass = Some (Return r, console)
    /\ (JS.get (parameterValues r) 0 <=? MAX_SAFE_INTEGER) = true.
Proof.
  assert (Hr : exists r console,
             fit 1 steep slope onePass = Some (Return r, console))
    by (eexists; eexists; vm_compute; reflexivity).
  destruct Hr as [r [console Hr]]. exists r, console.
  split; [exact Hr|].
  destruct (@X11_default_bounds_hold_after_a_pass imports 1%nat steep slope
              onePass _ _ r console eq_refl eq_refl eq_refl Hr)
    as [[_ Hi]|H].
  - exfalso. vm_compute in Hr. injection Hr as <- _.
    vm_compute in Hi. discriminate Hi.
  - destruct (H 0%nat) as [Hnan|[_ Hle]].
    + vm_compute. lia.
    + exfalso. vm_compute in Hr. injection Hr as <- _.
      vm_compute in Hnan. discriminate Hnan.
    + exact Hle.
Defined.

Lemma X12_witness :
  prepare {| Data.x := JS.Array []; Data.y := JS.Array [1; 2] |} line
    fromOrigin
  = inl "The data parameter elements must be an array with more than 2 points"%string.
Proof.
  exact (proj1 (proj2 (proj2
           (X12_the_first_failing_check_names_the_error
              {| Data.x := JS.Array []; Data.y := JS.Array [1; 2] |} line
              fromOrigin)))
           eq_refl eq_refl eq_refl).
Defined.

Lemma X13_witness :
  exists s p0,
    prepare withNaN line aligned = inr (s, p0)
    /\ isNaN (alignedFun s [0; 0] [2; 1] 3) = true.
Proof.
  eexists. eexists. split; [reflexivity|].
  exact (X13_nan_in_y_poisons_the_alignment withNaN line aligned _ _
           eq_refl eq_refl eq_refl [0; 0] [2; 1] 3).
Defined.

End MoreConcreteRuns.
